(** * The Arnold USD procedural: host entry points of [procedural/main.cpp]

    The file embeds the glue between the Arnold renderer and the USD
    reader and writer: search-path resolution, the procedural node
    methods (init, num_nodes, get_node, viewport) and the scene-format
    methods (load, write, format loader).

    The renderer API ([ai.h]), the USD library ([pxr]) and the helpers of
    [../utils/utils.h] are interfaces: the code only calls them, so they
    are operations of type classes here.  The reader and writer objects
    are values that carry the ordered record of the member calls made on
    them; messages and object lifetimes go to an ordered event log. *)

From Stdlib Require Import ZArith List String Ascii Bool Lia.
From Stdlib Require Import Floats.SpecFloat.
Import ListNotations.

Local Open Scope string_scope.
Local Open Scope list_scope.

(** ** C scalars *)

(** A C [float]: an IEEE-754 value, NaN included.  [a < b] is the IEEE
    comparison, false as soon as one side is NaN. *)
Definition float : Type := spec_float.

Definition flt_lt (a b : float) : bool := SFltb a b.
Arguments flt_lt : simpl never.

(** [::tolower] in the C locale: the 26 upper-case letters move down,
    every other character is left as it is. *)
Definition tolower (c : ascii) : ascii :=
  let n := nat_of_ascii c in
  if (65 <=? n)%nat && (n <=? 90)%nat then ascii_of_nat (n + 32) else c.

(** [std::transform(s.begin() + n, s.end(), s.begin() + n, f)]: the first
    [n] characters stay, [f] rewrites the others in place. *)
Fixpoint transform_from (n : nat) (f : ascii -> ascii) (s : string) : string :=
  match s with
  | EmptyString => EmptyString
  | String c s' =>
      match n with
      | O => String (f c) (transform_from O f s')
      | S n' => String c (transform_from n' f s')
      end
  end.

(** [f] applied to every character. *)
Fixpoint string_map (f : ascii -> ascii) (s : string) : string :=
  match s with
  | EmptyString => EmptyString
  | String c s' => String (f c) (string_map f s')
  end.

(** [std::string::empty]. *)
Definition string_empty (s : string) : bool :=
  match s with EmptyString => true | String _ _ => false end.

(** ** The interfaces the file is compiled against *)

(** The display modes of the viewport API, as the comment above
    [procedural_viewport] lists them. *)
Inductive AtProcViewportMode : Type :=
| AI_PROC_BOXES
| AI_PROC_POINTS
| AI_PROC_POLYGONS.

(** The opaque handle types of the two libraries.  The code never looks
    inside them. *)
Class Handles : Type := {
  AtNode : Type;
  AtUniverse : Type;
  AtArray : Type;
  AtParamValueMap : Type;
  UsdStageRefPtr : Type
}.

(** The renderer API.  Pointers that may be null are options; the universe
    argument [None] is the default universe, which is also what the calls
    written without an argument ([AiUniverseGetOptions()],
    [AiUniverseGetCamera()]) refer to. *)
Class Arnold `{Handles} : Type := {
  AiUniverseGetOptions : option AtUniverse -> option AtNode;
  AiUniverseGetCamera : option AtUniverse -> option AtNode;
  AiNodeGetStr : option AtNode -> string -> string;
  AiNodeGetFlt : option AtNode -> string -> float;
  AiNodeGetInt : option AtNode -> string -> Z;
  AiNodeGetBool : option AtNode -> string -> bool;
  AiNodeGetArray : option AtNode -> string -> option AtArray;
  (** an unsigned count *)
  AiArrayGetNumElements : AtArray -> N;
  (** the [AiParamValueMapGet*] calls return whether the key was found
      and write the value through their last argument *)
  AiParamValueMapGetBool : AtParamValueMap -> string -> option bool;
  AiParamValueMapGetInt : AtParamValueMap -> string -> option Z;
  AiParamValueMapGetFlt : AtParamValueMap -> string -> option float;
  AiParamValueMapGetStr : AtParamValueMap -> string -> option string;
  AI_VERSION : string
}.

(** The same renderer, with the [filename] parameter of every node
    answered by [g] instead. *)
Definition with_filename `{Handles} (a : Arnold) (g : option AtNode -> string)
  : Arnold := {|
  AiUniverseGetOptions := @AiUniverseGetOptions _ a;
  AiUniverseGetCamera := @AiUniverseGetCamera _ a;
  AiNodeGetStr := fun n p =>
    if String.eqb p "filename" then g n else @AiNodeGetStr _ a n p;
  AiNodeGetFlt := @AiNodeGetFlt _ a;
  AiNodeGetInt := @AiNodeGetInt _ a;
  AiNodeGetBool := @AiNodeGetBool _ a;
  AiNodeGetArray := @AiNodeGetArray _ a;
  AiArrayGetNumElements := @AiArrayGetNumElements _ a;
  AiParamValueMapGetBool := @AiParamValueMapGetBool _ a;
  AiParamValueMapGetInt := @AiParamValueMapGetInt _ a;
  AiParamValueMapGetFlt := @AiParamValueMapGetFlt _ a;
  AiParamValueMapGetStr := @AiParamValueMapGetStr _ a;
  AI_VERSION := @AI_VERSION _ a
|}.

(** The USD library. *)
Class Usd `{Handles} : Type := {
  IsSupportedFile : string -> bool;
  TfGetExtension : string -> string;
  (** [UsdStage::Open(SdfLayer::CreateNew(name))], null on failure *)
  UsdStage_Open_CreateNew : string -> option UsdStageRefPtr
}.

(** The helpers declared in [../utils/utils.h] and the constant strings of
    [constant_strings.h]; neither file is among the sources, so the file
    is verified for every implementation of them. *)
Class Utils : Type := {
  ExpandEnvironmentVariables : string -> string;
  TokenizePath : string -> string -> bool -> list string;
  PathJoin : string -> string -> string;
  IsFileAccessible : string -> bool;
  str_mask : string;
  str_scope : string;
  str_all_attributes : string
}.

(** ** Control flow and effects *)

(** What a function call comes to: a returned value, or behaviour the
    language leaves undefined (an index or an iterator out of range). *)
Inductive outcome (R : Type) : Type :=
| Ret (r : R)
| UndefinedBehaviour.
Arguments Ret {R} r.
Arguments UndefinedBehaviour {R}.

(** A statement either falls through with a value, or leaves the
    enclosing function with [return r], or is undefined. *)
Inductive flow (R A : Type) : Type :=
| Next (a : A)
| Return (r : R)
| Undefined.
Arguments Next {R A} a.
Arguments Return {R A} r.
Arguments Undefined {R A}.

Section Effects.
Variable event : Type.

(** A block of statements: where control goes, and the events it
    emitted, oldest first. *)
Definition M (R A : Type) : Type := (flow R A * list event)%type.

Definition pure {R A : Type} (a : A) : M R A := (Next a, []).

Definition emit {R : Type} (e : event) : M R unit := (Next tt, [e]).

Definition return_ {R A : Type} (r : R) : M R A := (Return r, []).

Definition undefined {R A : Type} : M R A := (Undefined, []).

Definition bind {R A B : Type} (m : M R A) (k : A -> M R B) : M R B :=
  match m with
  | (Next a, l) => let (f, l') := k a in (f, l ++ l')
  | (Return r, l) => (Return r, l)
  | (Undefined, l) => (Undefined, l)
  end.

(** A function body never falls off its end: its last statement is a
    [return]. *)
Definition call {R : Type} (body : M R Empty_set) : outcome R * list event :=
  match body with
  | (Next a, _) => match a with end
  | (Return r, l) => (Ret r, l)
  | (Undefined, l) => (UndefinedBehaviour, l)
  end.
End Effects.

Arguments pure {event R A} a.
Arguments emit {event R} e.
Arguments return_ {event R A} r.
Arguments undefined {event R A}.
Arguments bind {event R A B} m k.
Arguments call {event R} body.

Declare Scope fn_scope.
Delimit Scope fn_scope with fn.
Notation "x <- m ;; k" := (bind m (fun x => k))
  (at level 61, m at next level, right associativity) : fn_scope.
Notation "m ;; k" := (bind m (fun _ => k))
  (at level 61, right associativity) : fn_scope.

(** ** The reader and the writer *)

(** [new UsdArnoldViewportReaderRegistry(mode, params)]. *)
Record UsdArnoldViewportReaderRegistry `{Handles} : Type := {
  vp_mode : AtProcViewportMode;
  vp_params : option AtParamValueMap
}.

(** The member functions of [UsdArnoldReader] this file calls, with the
    arguments as written at the call site: an argument the call leaves to
    the default of the declaration is [None]. *)
Inductive reader_call `{Handles} : Type :=
| SetProceduralParent (node : AtNode)
| SetFrame (frame : float)
| SetDebug (b : bool)
| SetThreadCount (n : Z)
| SetMotionBlur (enabled : bool) (window : option (float * float))
| SetUniverse (universe : option AtUniverse)
| SetConvertPrimitives (b : bool)
| SetRegistry (registry : UsdArnoldViewportReaderRegistry)
| SetPurpose (purpose : string)
| SetMask (mask : Z)
| ReadCache (cache_id : Z) (path : string)
| ReadFile (filename : string) (overrides : option AtArray) (path : option string).

(** Modelled from the spec: [reader.h] and the reader's implementation are
    not among the sources.  The spec gives the reader configuration
    setters that are consulted before [Read], and a [Read] that fills an
    internally held ordered node list retrievable through [GetNodes].  The
    object is therefore the ordered record of the calls made on it and
    the node list; which nodes a read creates is left to [ReadNodes]. *)
Record UsdArnoldReader `{Handles} : Type := {
  calls : list reader_call;
  nodes : list AtNode
}.

Class Translation `{Handles} : Type := {
  ReadNodes : list reader_call -> list AtNode
}.

(** The member functions of [UsdArnoldWriter] this file calls. *)
Inductive writer_call `{Handles} : Type :=
| SetUsdStage (stage : UsdStageRefPtr)
| WriterSetMask (mask : Z)
| SetScope (scope : string)
| SetWriteAllAttributes (b : bool)
| Write (universe : option AtUniverse).

Record UsdArnoldWriter `{Handles} : Type := {
  writer_calls : list writer_call
}.

(** What the entry points do besides returning: objects created and
    destroyed (a destroyed object is logged with all that was done to
    it), messages, and the files touched through the USD library. *)
Inductive event `{Handles} : Type :=
| New_UsdArnoldReader
| Delete_UsdArnoldReader (reader : UsdArnoldReader)
| New_UsdArnoldViewportReaderRegistry (registry : UsdArnoldViewportReaderRegistry)
| Delete_UsdArnoldViewportReaderRegistry (registry : UsdArnoldViewportReaderRegistry)
| AiMsgError (format arg : string)
| AiMsgWarning (format arg : string)
| AiMsgInfo (format arg : string)
| SdfLayer_CreateNew (filename : string)
| New_UsdArnoldWriter
| Delete_UsdArnoldWriter (writer : UsdArnoldWriter)
| RootLayer_Save (stage : UsdStageRefPtr).

(** The two kinds of call the properties below single out. *)
Definition is_motion_blur `{Handles} (c : reader_call) : bool :=
  match c with SetMotionBlur _ _ => true | _ => false end.

Definition is_read `{Handles} (c : reader_call) : bool :=
  match c with ReadCache _ _ | ReadFile _ _ _ => true | _ => false end.

(** The method tables the two EXPORT_METHODS macros declare. *)
Inductive method_table : Type :=
| UsdProceduralMethods
| UsdSceneFormatMtd.

(** The fields of the host's scene-format descriptor that
    [scene_format_loader] fills.  [format_extensions] is the C array,
    its NULL entry included. *)
Record AtSceneFormatLib : Type := {
  format_methods : option method_table;
  format_extensions : list (option string);
  format_name : string;
  format_description : string;
  format_version : string
}.

(** The strings of a NULL-terminated array: the entries before the first
    NULL. *)
Fixpoint null_terminated (a : list (option string)) : list string :=
  match a with
  | Some s :: rest => s :: null_terminated rest
  | None :: _ => []
  | [] => []
  end.

Section Procedural.
Context {handles : Handles} {arnold : Arnold} {usd : Usd} {utils : Utils}
        {translation : Translation}.

Local Open Scope fn_scope.
Local Open Scope Z_scope.

(** *** [UsdArnoldReader] *)

Definition UsdArnoldReader_new : UsdArnoldReader :=
  {| calls := []; nodes := [] |}.

(** A configuration call: recorded, the node list untouched. *)
Definition configure (c : reader_call) (r : UsdArnoldReader) : UsdArnoldReader :=
  {| calls := calls r ++ [c]; nodes := nodes r |}.

(** [Read]: recorded, and the node list is what the translation of the
    stage under the configuration so far creates. *)
Definition Read (c : reader_call) (r : UsdArnoldReader) : UsdArnoldReader :=
  {| calls := calls r ++ [c]; nodes := ReadNodes (calls r ++ [c]) |}.

Definition GetNodes (r : UsdArnoldReader) : list AtNode := nodes r.

(** *** [UsdArnoldWriter] *)

Definition UsdArnoldWriter_new : UsdArnoldWriter := {| writer_calls := [] |}.

Definition writer_do (c : writer_call) (w : UsdArnoldWriter) : UsdArnoldWriter :=
  {| writer_calls := writer_calls w ++ [c] |}.

(** *** [applyProceduralSearchPath] *)

(** The [for] loop over [pathList]: the first directory whose joined
    path is accessible ends the function with that path ([Some]);
    running off the end leaves the file name alone ([None]). *)
Fixpoint search_path_loop (pathList : list string) (filename : string)
  : option string :=
  match pathList with
  | [] => None
  | path :: rest =>
      let fullPath := PathJoin path filename in
      if IsFileAccessible fullPath then Some fullPath
      else search_path_loop rest filename
  end.

Definition list_empty {A : Type} (l : list A) : bool :=
  match l with [] => true | _ :: _ => false end.

(** [filename] is passed by reference: the result is its value when the
    function returns. *)
Definition applyProceduralSearchPath (filename : string)
    (universe : option AtUniverse) : string :=
  match AiUniverseGetOptions universe with
  | Some optionsNode =>
      let proceduralPath := AiNodeGetStr (Some optionsNode) "procedural_searchpath" in
      let expandedSearchpath := ExpandEnvironmentVariables proceduralPath in
      let pathList := TokenizePath expandedSearchpath ":;" true in
      if negb (list_empty pathList) then
        match search_path_loop pathList filename with
        | Some fullPath => fullPath
        | None => filename
        end
      else filename
  | None => filename
  end.

(** *** [procedural_init] *)

(** Returns the status and the reader stored through [user_ptr]. *)
Definition procedural_init (node : AtNode)
  : outcome (Z * option UsdArnoldReader) * list event :=
  call (
    emit New_UsdArnoldReader ;;
    let data := UsdArnoldReader_new in
    let objectPath := AiNodeGetStr (Some node) "object_path" in
    let data := configure (SetProceduralParent node) data in
    let data := configure (SetFrame (AiNodeGetFlt (Some node) "frame")) data in
    let data := configure (SetDebug (AiNodeGetBool (Some node) "debug")) data in
    let data := configure (SetThreadCount (AiNodeGetInt (Some node) "threads")) data in
    let renderCam := AiUniverseGetCamera None in
    let data :=
      match renderCam with
      | Some cam =>
          if flt_lt (AiNodeGetFlt (Some cam) "shutter_start")
                    (AiNodeGetFlt (Some cam) "shutter_end")
          then
            let motionStart := AiNodeGetFlt (Some cam) "shutter_start" in
            let motionEnd := AiNodeGetFlt (Some cam) "shutter_end" in
            configure (SetMotionBlur (flt_lt motionStart motionEnd)
                                     (Some (motionStart, motionEnd))) data
          else configure (SetMotionBlur false None) data
      | None => configure (SetMotionBlur false None) data
      end in
    let cache_id := AiNodeGetInt (Some node) "cache_id" in
    let data :=
      if negb (cache_id =? 0) then
        Read (ReadCache cache_id objectPath) data
      else
        let filename := AiNodeGetStr (Some node) "filename" in
        let filename := applyProceduralSearchPath filename None in
        Read (ReadFile filename (AiNodeGetArray (Some node) "overrides")
                       (Some objectPath)) data
    in
    return_ (1, Some data)).

(** *** [procedural_cleanup] *)

Definition procedural_cleanup (user_ptr : option UsdArnoldReader)
  : outcome Z * list event :=
  call (
    match user_ptr with
    | Some data => emit (Delete_UsdArnoldReader data)
    | None => pure tt
    end ;;
    return_ 1).

(** *** [procedural_num_nodes] and [procedural_get_node] *)

(** The types of the return value and of the index [i] are fixed by the
    host's macros, not by this file: the count is the vector's size and
    the index an integer. *)
Definition procedural_num_nodes (user_ptr : option UsdArnoldReader) : nat :=
  match user_ptr with
  | Some data => List.length (GetNodes data)
  | None => 0%nat
  end.

(** [v[i]] on a [std::vector]: defined for [0 <= i < v.size()] only. *)
Definition vector_at {A : Type} (v : list A) (i : Z) : option A :=
  if (0 <=? i) && (i <? Z.of_nat (List.length v))
  then nth_error v (Z.to_nat i)
  else None.

(** The result is the node pointer, [None] for [NULL]. *)
Definition procedural_get_node (user_ptr : option UsdArnoldReader) (i : Z)
  : outcome (option AtNode) :=
  match user_ptr with
  | Some data =>
      match vector_at (GetNodes data) i with
      | Some n => Ret (Some n)
      | None => UndefinedBehaviour
      end
  | None => Ret None
  end.

(** *** [procedural_viewport] *)

(** [params && AiParamValueMapGetBool(params, "list", &listNodes) && listNodes]
    with [listNodes] initialised to [false]. *)
Definition list_requested (params : option AtParamValueMap) : bool :=
  match params with
  | Some p =>
      match AiParamValueMapGetBool p "list" with
      | Some listNodes => listNodes
      | None => false
      end
  | None => false
  end.

(** The parameter map holds the boolean [list], set to true. *)
Definition holds_list_true (params : option AtParamValueMap) : Prop :=
  exists p, params = Some p /\ AiParamValueMapGetBool p "list" = Some true.

Definition procedural_viewport (node : AtNode) (universe : option AtUniverse)
    (mode : AtProcViewportMode) (params : option AtParamValueMap)
  : outcome bool * list event :=
  call (
    let cache_id := AiNodeGetInt (Some node) "cache_id" in
    let filename := AiNodeGetStr (Some node) "filename" in
    let overrides := AiNodeGetArray (Some node) "overrides" in
    let hasOverrides :=
      match overrides with
      | Some a => (0 <? AiArrayGetNumElements a)%N
      | None => false
      end in
    filename <-
      (if cache_id =? 0 then
         if string_empty filename then
           if negb hasOverrides then return_ false
           else pure filename
         else
           let filename := applyProceduralSearchPath filename universe in
           if negb (IsSupportedFile filename) then
             emit (AiMsgError "[usd] File not supported : %s" filename) ;;
             return_ false
           else pure filename
       else pure filename) ;;
    emit New_UsdArnoldReader ;;
    let reader := UsdArnoldReader_new in
    let objectPath := AiNodeGetStr (Some node) "object_path" in
    let reader := configure (SetFrame (AiNodeGetFlt (Some node) "frame")) reader in
    let reader := configure (SetUniverse universe) reader in
    let reader := configure (SetThreadCount (AiNodeGetInt (Some node) "threads")) reader in
    configured <-
      (if list_requested params then
         pure (configure (SetConvertPrimitives false) reader, None)
       else
         let vpRegistry := {| vp_mode := mode; vp_params := params |} in
         emit (New_UsdArnoldViewportReaderRegistry vpRegistry) ;;
         let reader := configure (SetRegistry vpRegistry) reader in
         let reader := configure (SetPurpose "proxy") reader in
         pure (reader, Some vpRegistry)) ;;
    let reader := fst configured in
    let vpRegistry := snd configured in
    let reader :=
      if negb (cache_id =? 0) then Read (ReadCache cache_id objectPath) reader
      else Read (ReadFile filename overrides (Some objectPath)) reader in
    match vpRegistry with
    | Some registry => emit (Delete_UsdArnoldViewportReaderRegistry registry)
    | None => pure tt
    end ;;
    emit (Delete_UsdArnoldReader reader) ;;
    return_ true).

(** *** [scene_load] *)

Definition scene_load (universe : option AtUniverse) (filename : string)
    (params : option AtParamValueMap) : outcome bool * list event :=
  call (
    (if negb (IsSupportedFile filename) then
       emit (AiMsgError "[usd] File not supported : %s" filename) ;;
       return_ false
     else pure tt) ;;
    emit New_UsdArnoldReader ;;
    let reader := UsdArnoldReader_new in
    let reader := configure (SetUniverse universe) reader in
    let frame := AiNodeGetFlt (AiUniverseGetOptions None) "frame" in
    let threadCount := 0 in
    let frame :=
      match params with
      | Some p =>
          match AiParamValueMapGetFlt p "frame" with
          | Some f => f
          | None => frame
          end
      | None => frame
      end in
    let threadCount :=
      match params with
      | Some p =>
          match AiParamValueMapGetInt p "threads" with
          | Some n => n
          | None => threadCount
          end
      | None => threadCount
      end in
    let reader :=
      match params with
      | Some p =>
          match AiParamValueMapGetInt p "mask" with
          | Some mask => configure (SetMask mask) reader
          | None => reader
          end
      | None => reader
      end in
    let reader := configure (SetFrame frame) reader in
    let reader := configure (SetThreadCount threadCount) reader in
    let reader := Read (ReadFile filename None None) reader in
    emit (Delete_UsdArnoldReader reader) ;;
    return_ true).

(** *** [scene_write] *)

(** The block entered when the name is not supported as given.  The
    iterator [begin() + basenameLength] is inside the string only when
    the extension is no longer than the name. *)
Definition lower_case_extension (filenameStr : string) : M event bool string :=
  let extension := TfGetExtension filenameStr in
  if (String.length extension <=? String.length filenameStr)%nat then
    let basenameLength := (String.length filenameStr - String.length extension)%nat in
    let filenameStr := transform_from basenameLength tolower filenameStr in
    if IsSupportedFile filenameStr then
      emit (AiMsgWarning "[usd] File extension must be lower case. Saving as %s"
                         filenameStr) ;;
      pure filenameStr
    else
      emit (AiMsgError "[usd] File not supported : %s" filenameStr) ;;
      return_ false
  else undefined.

Definition scene_write (universe : option AtUniverse) (filename : string)
    (params : option AtParamValueMap) : outcome bool * list event :=
  call (
    let filenameStr := filename in
    filenameStr <-
      (if negb (IsSupportedFile filenameStr) then lower_case_extension filenameStr
       else pure filenameStr) ;;
    emit (SdfLayer_CreateNew filenameStr) ;;
    match UsdStage_Open_CreateNew filenameStr with
    | None =>
        emit (AiMsgError "[usd] Unable to create USD stage from %s" filenameStr) ;;
        return_ false
    | Some stage =>
        emit New_UsdArnoldWriter ;;
        let writer := UsdArnoldWriter_new in
        let writer := writer_do (SetUsdStage stage) writer in
        let writer :=
          match params with
          | Some p =>
              let writer :=
                match AiParamValueMapGetInt p str_mask with
                | Some mask => writer_do (WriterSetMask mask) writer
                | None => writer
                end in
              let writer :=
                match AiParamValueMapGetStr p str_scope with
                | Some scope => writer_do (SetScope scope) writer
                | None => writer
                end in
              match AiParamValueMapGetBool p str_all_attributes with
              | Some allAttributes =>
                  writer_do (SetWriteAllAttributes allAttributes) writer
              | None => writer
              end
          | None => writer
          end in
        let writer := writer_do (Write universe) writer in
        emit (RootLayer_Save stage) ;;
        emit (AiMsgInfo "[usd] Saved scene as %s" filenameStr) ;;
        emit (Delete_UsdArnoldWriter writer) ;;
        return_ true
    end).

(** *** [scene_format_loader] *)

(** Fills the descriptor the host passes in and returns [true]. *)
Definition scene_format_loader (format : AtSceneFormatLib)
  : bool * AtSceneFormatLib :=
  let extensions := [Some ".usd"; Some ".usda"; Some ".usdc"; None] in
  (true,
   {| format_methods := Some UsdSceneFormatMtd;
      format_extensions := extensions;
      format_name := "USD";
      format_description := "Load and write USD files in Arnold";
      format_version := AI_VERSION |}).

End Procedural.

(** ** A concrete host

    A small renderer scene, file system and USD library against which the
    entry points run by computation. *)
Module Host.

Inductive value : Type :=
| VStr (s : string)
| VFlt (f : float)
| VInt (z : Z)
| VBool (b : bool)
| VArray (a : list string).

Definition table : Type := list (string * value).

Fixpoint lookup {A : Type} (key : string) (t : list (string * A)) : option A :=
  match t with
  | [] => None
  | (k, v) :: rest => if String.eqb k key then Some v else lookup key rest
  end.

(** Nodes are known by name. *)
Record scene : Type := {
  scene_nodes : list (string * table);
  scene_options : option string;
  scene_camera : option string;
  scene_files : list string
}.

Definition param (sc : scene) (node : option string) (name : string) : option value :=
  match node with
  | Some n =>
      match lookup n (scene_nodes sc) with
      | Some t => lookup name t
      | None => None
      end
  | None => None
  end.

#[export] Instance handles : Handles := {|
  AtNode := string;
  AtUniverse := nat;
  AtArray := list string;
  AtParamValueMap := table;
  UsdStageRefPtr := string
|}.

Definition zero : float := S754_zero false.

Definition arnold (sc : scene) : Arnold := {|
  AiUniverseGetOptions := fun _ => scene_options sc;
  AiUniverseGetCamera := fun _ => scene_camera sc;
  AiNodeGetStr := fun n p =>
    match param sc n p with Some (VStr s) => s | _ => "" end;
  AiNodeGetFlt := fun n p =>
    match param sc n p with Some (VFlt f) => f | _ => zero end;
  AiNodeGetInt := fun n p =>
    match param sc n p with Some (VInt z) => z | _ => 0%Z end;
  AiNodeGetBool := fun n p =>
    match param sc n p with Some (VBool b) => b | _ => false end;
  AiNodeGetArray := fun n p =>
    match param sc n p with Some (VArray a) => Some a | _ => None end;
  AiArrayGetNumElements := fun a => N.of_nat (List.length a);
  AiParamValueMapGetBool := fun (m : table) k =>
    match lookup k m with Some (VBool b) => Some b | _ => None end;
  AiParamValueMapGetInt := fun (m : table) k =>
    match lookup k m with Some (VInt z) => Some z | _ => None end;
  AiParamValueMapGetFlt := fun (m : table) k =>
    match lookup k m with Some (VFlt f) => Some f | _ => None end;
  AiParamValueMapGetStr := fun (m : table) k =>
    match lookup k m with Some (VStr s) => Some s | _ => None end;
  AI_VERSION := "6.0.2.0"
|}.

(** The text after the last dot, if there is a dot. *)
Fixpoint after_last_dot (s : string) : option string :=
  match s with
  | EmptyString => None
  | String c s' =>
      match after_last_dot s' with
      | Some e => Some e
      | None => if Ascii.eqb c "."%char then Some s' else None
      end
  end.

Definition extension (s : string) : string :=
  match after_last_dot s with Some e => e | None => "" end.

Definition usd : Usd := {|
  IsSupportedFile := fun s =>
    match after_last_dot s with
    | Some e => String.eqb e "usd" || String.eqb e "usda" || String.eqb e "usdc"
    | None => false
    end;
  TfGetExtension := extension;
  UsdStage_Open_CreateNew := fun s => Some s
|}.

Fixpoint is_separator (c : ascii) (seps : string) : bool :=
  match seps with
  | EmptyString => false
  | String d rest => Ascii.eqb c d || is_separator c rest
  end.

(** Modelled from the spec: [TokenizePath] is declared in
    [../utils/utils.h], which is not among the sources.  The spec speaks of
    a colon/semicolon-delimited search path giving a list of candidate
    directories: the text is cut at every separator character and the
    pieces are kept in order, empty pieces dropped.  [cur] is the piece
    being read. *)
Fixpoint tokenize (seps : string) (cur : string) (s : string) : list string :=
  match s with
  | EmptyString => if string_empty cur then [] else [cur]
  | String c s' =>
      if is_separator c seps then
        if string_empty cur then tokenize seps "" s'
        else cur :: tokenize seps "" s'
      else tokenize seps (cur ++ String c "")%string s'
  end.

Definition utils (files : list string) : Utils := {|
  ExpandEnvironmentVariables := fun s => s;
  TokenizePath := fun path seps _ => tokenize seps "" path;
  PathJoin := fun dir name => (dir ++ "/" ++ name)%string;
  IsFileAccessible := fun f => existsb (String.eqb f) files;
  str_mask := "mask";
  str_scope := "scope";
  str_all_attributes := "all_attributes"
|}.

(** Every read creates the same two nodes. *)
Definition translation : Translation := {|
  ReadNodes := fun _ => ["/root/mesh"; "/root/light"]
|}.

Definition frame_1 : float := S754_finite false 1 0.
Definition minus_quarter : float := S754_finite true 1 (-2).
Definition plus_quarter : float := S754_finite false 1 (-2).

(** A scene with an options node, an open-shutter camera and three
    procedurals. *)
Definition studio : scene := {|
  scene_nodes :=
    [ ("options", [("procedural_searchpath", VStr "/assets:/shots;/tmp");
                   ("frame", VFlt frame_1)]);
      ("persp", [("shutter_start", VFlt minus_quarter);
                 ("shutter_end", VFlt plus_quarter)]);
      ("proc_file", [("filename", VStr "hero.usd");
                     ("object_path", VStr "/root");
                     ("overrides", VArray []);
                     ("cache_id", VInt 0)]);
      ("proc_cache", [("filename", VStr "hero.usd");
                      ("object_path", VStr "/root");
                      ("cache_id", VInt 7)]);
      ("proc_patch", [("filename", VStr "");
                      ("overrides", VArray ["over Xform root"]);
                      ("cache_id", VInt 0)]);
      ("proc_blank", [("filename", VStr ""); ("cache_id", VInt 0)]);
      ("proc_text", [("filename", VStr "notes.txt"); ("cache_id", VInt 0)]) ];
  scene_options := Some "options";
  scene_camera := Some "persp";
  scene_files := ["/shots/hero.usd"; "/tmp/hero.usd"]
|}.

(** The same scene with the shutter closed. *)
Definition still : scene := {|
  scene_nodes :=
    [ ("persp", [("shutter_start", VFlt plus_quarter);
                 ("shutter_end", VFlt plus_quarter)]);
      ("proc_file", [("filename", VStr "hero.usd"); ("cache_id", VInt 0)]) ];
  scene_options := None;
  scene_camera := Some "persp";
  scene_files := []
|}.

(** A reader after a read that created two nodes. *)
Definition two_nodes : @UsdArnoldReader handles :=
  {| calls := [ReadCache 7 "/root"];
     nodes := ["/root/mesh"; "/root/light"] |}.

(** The studio as the renderer sees it, and its file system. *)
Definition renderer : Arnold := arnold studio.
Definition helpers : Utils := utils (scene_files studio).

End Host.

(** ** The rest of [procedural/main.cpp] *)

(** The [AI_TYPE_*] constants the file names. *)
Inductive AtParamType : Type :=
| AI_TYPE_NONE
| AI_TYPE_STRING.

(** The one node kind the file names. *)
Inductive AtNodeKind : Type :=
| AI_NODE_SHAPE_PROCEDURAL.

(** The statements of the [node_parameters] block, as written:
    [AiParameterArray(name, AiArray(nelements, nkeys, type))] keeps the
    three arguments of [AiArray]. *)
Inductive node_entry_statement : Type :=
| AiParameterStr (name default : string)
| AiParameterFlt (name : string) (default : float)
| AiParameterBool (name : string) (default : bool)
| AiParameterInt (name : string) (default : Z)
| AiParameterArray (name : string) (nelements nkeys : N) (type : AtParamType)
| AiMetaDataSetBool (param name : string) (value : bool).

(** [0.0]. *)
Definition float_zero : float := S754_zero false.

Definition node_parameters : list node_entry_statement :=
  [ AiParameterStr "filename" "";
    AiParameterStr "object_path" "";
    AiParameterFlt "frame" float_zero;
    AiParameterBool "debug" false;
    AiParameterInt "threads" 0;
    AiParameterArray "overrides" 0 1 AI_TYPE_STRING;
    AiParameterInt "cache_id" 0;
    AiMetaDataSetBool "filename" "_triggers_reload" true;
    AiMetaDataSetBool "object_path" "_triggers_reload" true;
    AiMetaDataSetBool "frame" "_triggers_reload" true;
    AiMetaDataSetBool "overrides" "_triggers_reload" true;
    AiMetaDataSetBool "cache_id" "_triggers_reload" true;
    AiMetaDataSetBool "" "parallel_init" true ].

(** The parameters a statement list marks with [_triggers_reload]. *)
Fixpoint reload_triggers (entry : list node_entry_statement) : list string :=
  match entry with
  | [] => []
  | AiMetaDataSetBool param "_triggers_reload" true :: rest =>
      param :: reload_triggers rest
  | _ :: rest => reload_triggers rest
  end.

Definition triggers_reload (name : string) : bool :=
  existsb (String.eqb name) (reload_triggers node_parameters).

(** A node reads back the default of a declaration: the state of a node
    between its creation by the host and the first assignment to the
    parameter.  An array parameter holds an array with the declared
    number of elements, or none. *)
Definition holds_default `{Arnold} (node : AtNode) (s : node_entry_statement)
  : Prop :=
  match s with
  | AiParameterStr name default => AiNodeGetStr (Some node) name = default
  | AiParameterFlt name default => AiNodeGetFlt (Some node) name = default
  | AiParameterBool name default => AiNodeGetBool (Some node) name = default
  | AiParameterInt name default => AiNodeGetInt (Some node) name = default
  | AiParameterArray name nelements _ _ =>
      forall a, AiNodeGetArray (Some node) name = Some a ->
                AiArrayGetNumElements a = nelements
  | AiMetaDataSetBool _ _ _ => True
  end.

Definition holds_defaults `{Arnold} (node : AtNode) : Prop :=
  Forall (holds_default node) node_parameters.

(** The parameters a statement list declares. *)
Fixpoint declared_parameters (entry : list node_entry_statement) : list string :=
  match entry with
  | [] => []
  | AiParameterStr name _ :: rest => name :: declared_parameters rest
  | AiParameterFlt name _ :: rest => name :: declared_parameters rest
  | AiParameterBool name _ :: rest => name :: declared_parameters rest
  | AiParameterInt name _ :: rest => name :: declared_parameters rest
  | AiParameterArray name _ _ _ :: rest => name :: declared_parameters rest
  | AiMetaDataSetBool _ _ _ :: rest => declared_parameters rest
  end.

Definition declared (name : string) : bool :=
  existsb (String.eqb name) (declared_parameters node_parameters).

(** [name], read on [n], is a parameter of the procedural [node] that
    [node_parameters] declares and does not mark with
    [_triggers_reload]. *)
Definition unmarked_parameter `{Handles} (node : AtNode) (n : option AtNode)
    (name : string) : Prop :=
  n = Some node /\ declared name = true /\ triggers_reload name = false.

(** Two renderers that show the same universe and answer every
    parameter read alike, the unmarked parameters of [node] apart. *)
Definition agree_on_reload_triggers `{Handles} (a b : Arnold) (node : AtNode)
  : Prop :=
  @AiUniverseGetOptions _ a = @AiUniverseGetOptions _ b /\
  @AiUniverseGetCamera _ a = @AiUniverseGetCamera _ b /\
  forall n name,
    ~ unmarked_parameter node n name ->
    @AiNodeGetStr _ a n name = @AiNodeGetStr _ b n name /\
    @AiNodeGetFlt _ a n name = @AiNodeGetFlt _ b n name /\
    @AiNodeGetInt _ a n name = @AiNodeGetInt _ b n name /\
    @AiNodeGetBool _ a n name = @AiNodeGetBool _ b n name /\
    @AiNodeGetArray _ a n name = @AiNodeGetArray _ b n name.


(** The calls that pass on the [debug] and [threads] parameters. *)
Definition is_debug_or_threads `{Handles} (c : reader_call) : bool :=
  match c with SetDebug _ | SetThreadCount _ => true | _ => false end.

(** The fields of the host's node descriptor that [node_loader] fills;
    [None] is a field this file has not written. *)
Record AtNodeLib : Type := {
  node_methods : option method_table;
  node_output_type : option AtParamType;
  node_name : option string;
  node_kind : option AtNodeKind;
  node_version : option string
}.

(** What the build and the dynamic loader decide: whether [_DARWIN] or
    [_LINUX] is defined, the procedural's name macro, the file name
    [dladdr] reports for the library ([None] when it fails), whether
    [dlopen] of a path gives a handle, and the text of [dlerror]. *)
Class Platform : Type := {
  posix : bool;
  USD_PROCEDURAL_NAME : string;
  dladdr_fname : option string;
  dlopen : string -> bool;
  dlerror : string
}.

Definition newline : string := String (ascii_of_nat 10) "".

Section Loader.
Context {handles : Handles} {arnold : Arnold} {platform : Platform}.

Local Open Scope Z_scope.

(** [USDLibraryPath], compiled on the two POSIX platforms only. *)
Definition USDLibraryPath : string :=
  match dladdr_fname with
  | Some path => path
  | None => ""
  end.

(** [node_loader]: the descriptor after the call, the returned flag and
    the messages.  The index type is fixed by the host's macro. *)
Definition node_loader (i : Z) (node : AtNodeLib)
  : (bool * AtNodeLib) * list event :=
  if 0 <? i then ((false, node), [])
  else
    let node :=
      {| node_methods := Some UsdProceduralMethods;
         node_output_type := Some AI_TYPE_NONE;
         node_name := Some USD_PROCEDURAL_NAME;
         node_kind := Some AI_NODE_SHAPE_PROCEDURAL;
         node_version := Some AI_VERSION |} in
    if posix then
      if dlopen USDLibraryPath then ((true, node), [])
      else
        ((true, node),
         [AiMsgWarning
            ("[USD] failed to re-load usd_proc.dylib. Crashes might happen on pre-10.13 OSX systems: %s"
               ++ newline)%string
            dlerror])
    else ((true, node), []).
End Loader.

(** ** Kinds of events *)

Definition is_new_reader `{Handles} (e : event) : bool :=
  match e with New_UsdArnoldReader => true | _ => false end.

Definition is_delete_reader `{Handles} (e : event) : bool :=
  match e with Delete_UsdArnoldReader _ => true | _ => false end.

Definition is_new_registry `{Handles} (e : event) : bool :=
  match e with New_UsdArnoldViewportReaderRegistry _ => true | _ => false end.

Definition is_delete_registry `{Handles} (e : event) : bool :=
  match e with Delete_UsdArnoldViewportReaderRegistry _ => true | _ => false end.

Definition is_new_writer `{Handles} (e : event) : bool :=
  match e with New_UsdArnoldWriter => true | _ => false end.

Definition is_delete_writer `{Handles} (e : event) : bool :=
  match e with Delete_UsdArnoldWriter _ => true | _ => false end.

(** Events of the writing side: a layer, a writer, a save. *)
Definition is_output `{Handles} (e : event) : bool :=
  match e with
  | SdfLayer_CreateNew _ | New_UsdArnoldWriter | Delete_UsdArnoldWriter _
  | RootLayer_Save _ => true
  | _ => false
  end.

(** Events of the reading side: a reader or a viewport registry. *)
Definition is_input `{Handles} (e : event) : bool :=
  match e with
  | New_UsdArnoldReader | Delete_UsdArnoldReader _
  | New_UsdArnoldViewportReaderRegistry _
  | Delete_UsdArnoldViewportReaderRegistry _ => true
  | _ => false
  end.

Definition count {A : Type} (p : A -> bool) (l : list A) : nat :=
  List.length (filter p l).

(** The configuration calls a viewport reader can receive. *)
Definition is_viewport_call `{Handles} (c : reader_call) : bool :=
  match c with
  | SetFrame _ | SetUniverse _ | SetThreadCount _ | SetConvertPrimitives _
  | SetRegistry _ | SetPurpose _ => true
  | _ => false
  end.

(** ** The Hydra renderer plugin ([renderer_plugin.cpp]) *)

(** A token is an interned string; two tokens are equal when their
    strings are. *)
Record TfToken : Type := { GetString : string }.

Definition TfToken_eqb (a b : TfToken) : bool :=
  String.eqb (GetString a) (GetString b).

(** What the plugin is compiled against: the values a [VtValue] can hold
    besides a token and a string, and the token [str::t_husk] of
    [constant_strings.h]. *)
Class HydraLib : Type := {
  VtPayload : Type;
  str_t_husk : TfToken
}.

Inductive VtValue `{HydraLib} : Type :=
| HoldingToken (t : TfToken)
| HoldingString (s : string)
| HoldingOther (v : VtPayload).

(** A settings map, as the sequence of entries its iteration visits. *)
Definition HdRenderSettingsMap `{HydraLib} : Type := list (TfToken * VtValue).

Inductive HdArnoldRenderContext : Type :=
| Hydra
| Husk.

(** A render delegate: the context its constructor was given ([None]
    for the constructor without argument) and the [SetRenderSetting]
    calls made on it, oldest first. *)
Record HdArnoldRenderDelegate `{HydraLib} : Type := {
  delegate_context : option HdArnoldRenderContext;
  render_settings : list (TfToken * VtValue)
}.

Section RendererPlugin.
Context {hydra : HydraLib}.

(** [_tokens->houdini_renderer]. *)
Definition houdini_renderer : TfToken := {| GetString := "houdini:renderer" |}.

(** [TfMapLookupPtr]: the value stored under the key, if any. *)
Fixpoint TfMapLookupPtr (m : HdRenderSettingsMap) (key : TfToken)
  : option VtValue :=
  match m with
  | [] => None
  | (k, v) :: rest =>
      if TfToken_eqb k key then Some v else TfMapLookupPtr rest key
  end.

Definition SetRenderSetting (key : TfToken) (value : VtValue)
    (d : HdArnoldRenderDelegate) : HdArnoldRenderDelegate :=
  {| delegate_context := delegate_context d;
     render_settings := render_settings d ++ [(key, value)] |}.

(** [IsHolding<T>() && UncheckedGet<T>() == husk], for the two types
    tried. *)
Definition names_husk (v : VtValue) : bool :=
  match v with
  | HoldingToken t => TfToken_eqb t str_t_husk
  | HoldingString s => String.eqb s (GetString str_t_husk)
  | HoldingOther _ => false
  end.

(** [CreateRenderDelegate()]. *)
Definition CreateRenderDelegate : HdArnoldRenderDelegate :=
  {| delegate_context := None; render_settings := [] |}.

(** [CreateRenderDelegate(settingsMap)]. *)
Definition CreateRenderDelegate_settings (settingsMap : HdRenderSettingsMap)
  : HdArnoldRenderDelegate :=
  let context := Hydra in
  let houdiniRenderer := TfMapLookupPtr settingsMap houdini_renderer in
  let context :=
    match houdiniRenderer with
    | Some v => if names_husk v then Husk else context
    | None => context
    end in
  let delegate := {| delegate_context := Some context; render_settings := [] |} in
  fold_left (fun delegate setting =>
               SetRenderSetting (fst setting) (snd setting) delegate)
            settingsMap delegate.

(** [IsSupported]. *)
Definition IsSupported : bool := true.

End RendererPlugin.

(** ** More of the concrete host *)
Module Workshop.
Import Host.

(** A procedural that names a text file and a cached stage. *)
Definition cached_text : scene := {|
  scene_nodes :=
    [ ("proc_cached_text", [("filename", VStr "notes.txt");
                            ("object_path", VStr "/root");
                            ("cache_id", VInt 7)]) ];
  scene_options := None;
  scene_camera := None;
  scene_files := []
|}.

(** The node is the file procedural. *)
Definition is_proc_file (n : option string) : bool :=
  match n with
  | Some s => String.eqb s "proc_file"
  | None => false
  end.

(** The same renderer with the [debug] and [threads] parameters of the
    file procedural answered differently. *)
Definition tuned (a : Arnold) : Arnold := {|
  AiUniverseGetOptions := @AiUniverseGetOptions _ a;
  AiUniverseGetCamera := @AiUniverseGetCamera _ a;
  AiNodeGetStr := @AiNodeGetStr _ a;
  AiNodeGetFlt := @AiNodeGetFlt _ a;
  AiNodeGetInt := fun n p =>
    if is_proc_file n && String.eqb p "threads" then 8%Z
    else @AiNodeGetInt _ a n p;
  AiNodeGetBool := fun n p =>
    if is_proc_file n && String.eqb p "debug" then true
    else @AiNodeGetBool _ a n p;
  AiNodeGetArray := @AiNodeGetArray _ a;
  AiArrayGetNumElements := @AiArrayGetNumElements _ a;
  AiParamValueMapGetBool := @AiParamValueMapGetBool _ a;
  AiParamValueMapGetInt := @AiParamValueMapGetInt _ a;
  AiParamValueMapGetFlt := @AiParamValueMapGetFlt _ a;
  AiParamValueMapGetStr := @AiParamValueMapGetStr _ a;
  AI_VERSION := @AI_VERSION _ a
|}.





End Workshop.

(** * Properties *)

Section SearchPath.
Context {handles : Handles} {arnold : Arnold} {utils : Utils}.

(** No directory gives an accessible file: the loop runs off its end. *)
Lemma search_path_loop_miss (dirs : list string) (filename : string) :
  (forall dir, In dir dirs -> IsFileAccessible (PathJoin dir filename) = false) ->
  search_path_loop dirs filename = None.
Proof.
  induction dirs as [|d dirs IH]; intros Hall; simpl.
  - reflexivity.
  - rewrite (Hall d (or_introl eq_refl)).
    apply IH. intros dir Hin. apply Hall. now right.
Qed.

(** The loop stops at the first directory whose joined path is
    accessible. *)
Lemma search_path_loop_hit (dirs : list string) (filename : string) :
  forall (i : nat) (dir : string),
    nth_error dirs i = Some dir ->
    IsFileAccessible (PathJoin dir filename) = true ->
    (forall j earlier, (j < i)%nat -> nth_error dirs j = Some earlier ->
                       IsFileAccessible (PathJoin earlier filename) = false) ->
    search_path_loop dirs filename = Some (PathJoin dir filename).
Proof.
  induction dirs as [|d dirs IH]; intros i dir Hnth Hacc Hbefore.
  - destruct i; discriminate.
  - destruct i as [|i]; simpl in Hnth |- *.
    + injection Hnth as ->. now rewrite Hacc.
    + rewrite (Hbefore 0%nat d (Nat.lt_0_succ i) eq_refl).
      apply (IH i dir Hnth Hacc).
      intros j earlier Hj Hnj.
      apply (Hbefore (S j) earlier); [lia | exact Hnj].
Qed.

(** C3: the search path of the options node, expanded and cut at [:]
    and [;], gives the directories in order; the file name becomes the
    first joined path that names an accessible file, and stays as it
    is when no directory gives one, when the universe has no options
    node, and when the path yields no directory. *)
Theorem applyProceduralSearchPath_first_match
    (filename : string) (universe : option AtUniverse) :
  (AiUniverseGetOptions universe = None ->
   applyProceduralSearchPath filename universe = filename) /\
  (forall optionsNode dirs,
      AiUniverseGetOptions universe = Some optionsNode ->
      dirs = TokenizePath
               (ExpandEnvironmentVariables
                  (AiNodeGetStr (Some optionsNode) "procedural_searchpath"))
               ":;" true ->
      (dirs = [] -> applyProceduralSearchPath filename universe = filename) /\
      ((forall dir, In dir dirs ->
                    IsFileAccessible (PathJoin dir filename) = false) ->
       applyProceduralSearchPath filename universe = filename) /\
      (forall i dir,
          nth_error dirs i = Some dir ->
          IsFileAccessible (PathJoin dir filename) = true ->
          (forall j earlier, (j < i)%nat -> nth_error dirs j = Some earlier ->
                             IsFileAccessible (PathJoin earlier filename) = false) ->
          applyProceduralSearchPath filename universe = PathJoin dir filename)).
Proof.
  unfold applyProceduralSearchPath. split.
  - intros ->. reflexivity.
  - intros optionsNode dirs -> Hdirs. rewrite <- Hdirs. clear Hdirs.
    split; [|split].
    + intros ->. reflexivity.
    + intros Hall. rewrite (search_path_loop_miss dirs filename Hall).
      now destruct (negb (list_empty dirs)).
    + intros i dir Hnth Hacc Hbefore.
      rewrite (search_path_loop_hit dirs filename i dir Hnth Hacc Hbefore).
      destruct dirs; [destruct i; discriminate | reflexivity].
Qed.

End SearchPath.

(** The studio's search path is [/assets:/shots;/tmp]; [hero.usd] is
    missing from [/assets] and present in [/shots] and [/tmp]. *)
Lemma applyProceduralSearchPath_first_match_studio :
  @applyProceduralSearchPath _ (Host.arnold Host.studio)
     (Host.utils (Host.scene_files Host.studio)) "hero.usd" None
  = "/shots/hero.usd".
Proof.
  destruct (@applyProceduralSearchPath_first_match _ (Host.arnold Host.studio)
              (Host.utils (Host.scene_files Host.studio)) "hero.usd" None)
    as [_ Hsome].
  destruct (Hsome "options" ["/assets"; "/shots"; "/tmp"] eq_refl eq_refl)
    as (_ & _ & Hfirst).
  apply (Hfirst 1%nat "/shots" eq_refl eq_refl).
  intros j earlier Hj Hnth.
  destruct j as [|j]; [|lia].
  injection Hnth as <-. reflexivity.
Defined.

Section ProceduralNode.
Context {handles : Handles} {arnold : Arnold} {utils : Utils}
        {translation : Translation}.

Local Open Scope Z_scope.

(** C1: with a non-zero [cache_id] the one read of the initialisation
    is [Read(cache_id, objectPath)] and the outcome is the same whatever
    the [filename] parameters hold; with [cache_id] zero the one read
    is [Read(filename, overrides, objectPath)] on the node's file name
    after search-path resolution and the node's overrides array. *)
Theorem procedural_init_read_source (node : AtNode) :
  let cache_id := AiNodeGetInt (Some node) "cache_id" in
  let objectPath := AiNodeGetStr (Some node) "object_path" in
  (cache_id <> 0 ->
   (exists data,
       procedural_init node = (Ret (1, Some data), [New_UsdArnoldReader]) /\
       filter is_read (calls data) = [ReadCache cache_id objectPath]) /\
   (forall g : option AtNode -> string,
       @procedural_init handles (with_filename arnold g) utils translation node
       = procedural_init node)) /\
  (cache_id = 0 ->
   exists data,
     procedural_init node = (Ret (1, Some data), [New_UsdArnoldReader]) /\
     filter is_read (calls data)
     = [ReadFile
          (applyProceduralSearchPath (AiNodeGetStr (Some node) "filename") None)
          (AiNodeGetArray (Some node) "overrides")
          (Some objectPath)]).
Proof.
  intros cache_id objectPath. subst cache_id objectPath.
  unfold procedural_init. split.
  - intros Hid. apply Z.eqb_neq in Hid. split.
    + cbn. rewrite Hid. cbn.
      destruct (AiUniverseGetCamera None) as [cam|];
        [destruct (flt_lt _ _) eqn:Hlt|]; cbn; try rewrite Hlt;
        eexists; (split; [reflexivity|reflexivity]).
    + intros g. cbn. rewrite Hid. reflexivity.
  - intros Hid. cbn. rewrite Hid. cbn.
    destruct (AiUniverseGetCamera None) as [cam|];
      [destruct (flt_lt _ _) eqn:Hlt|]; cbn; try rewrite Hlt;
      eexists; (split; [reflexivity|reflexivity]).
Qed.

(** C2: the initialisation makes exactly one [SetMotionBlur] call.  Its
    flag is true if and only if the universe has a render camera whose
    [shutter_start] is below its [shutter_end]; the call then carries
    that camera's two shutter values as the window, so the window's
    start is below its end; otherwise the call is [SetMotionBlur(false)]. *)
Theorem procedural_init_motion_blur (node : AtNode) :
  exists data enabled window,
    fst (procedural_init node) = Ret (1, Some data) /\
    filter is_motion_blur (calls data) = [SetMotionBlur enabled window] /\
    (enabled = true <->
     exists cam,
       AiUniverseGetCamera None = Some cam /\
       flt_lt (AiNodeGetFlt (Some cam) "shutter_start")
              (AiNodeGetFlt (Some cam) "shutter_end") = true) /\
    (enabled = true ->
     exists cam,
       AiUniverseGetCamera None = Some cam /\
       window = Some (AiNodeGetFlt (Some cam) "shutter_start",
                      AiNodeGetFlt (Some cam) "shutter_end")) /\
    (enabled = true ->
     exists motionStart motionEnd,
       window = Some (motionStart, motionEnd) /\
       flt_lt motionStart motionEnd = true) /\
    (enabled = false -> window = None).
Proof.
  unfold procedural_init. cbn.
  destruct (AiUniverseGetCamera None) as [cam|] eqn:Hcam.
  - destruct (flt_lt (AiNodeGetFlt (Some cam) "shutter_start")
                     (AiNodeGetFlt (Some cam) "shutter_end")) eqn:Hlt.
    + destruct (negb _); cbn;
        (do 3 eexists; split; [reflexivity|]; split; [reflexivity|]);
        (split; [split; [intros _; exists cam; auto | reflexivity]|]);
        (split; [intros _; exists cam; auto|]);
        (split; [intros _; eauto | discriminate]).
    + destruct (negb _); cbn;
        (do 3 eexists; split; [reflexivity|]; split; [reflexivity|]);
        (split; [split; [discriminate|]|]);
        try (intros (cam' & Hc & Hl); congruence);
        (split; [discriminate|]); (split; [discriminate | reflexivity]).
  - destruct (negb _); cbn;
      (do 3 eexists; split; [reflexivity|]; split; [reflexivity|]);
      (split; [split; [discriminate|]|]);
      try (intros (cam' & Hc & Hl); discriminate);
      (split; [discriminate|]); (split; [discriminate | reflexivity]).
Qed.

(** C10: without a reader the count is 0 and the node is [NULL]; with
    a reader the count is the length of its node list and every index
    within that length gives the element of the list at that index. *)
Theorem procedural_nodes_by_index :
  (procedural_num_nodes None = 0%nat /\
   forall i, procedural_get_node None i = Ret None) /\
  (forall data,
      procedural_num_nodes (Some data) = List.length (GetNodes data) /\
      forall i,
        0 <= i < Z.of_nat (List.length (GetNodes data)) ->
        exists n,
          nth_error (GetNodes data) (Z.to_nat i) = Some n /\
          procedural_get_node (Some data) i = Ret (Some n)).
Proof.
  split; [split; reflexivity|].
  intros data. split; [reflexivity|].
  intros i [Hlo Hhi].
  destruct (nth_error (GetNodes data) (Z.to_nat i)) as [n|] eqn:Hnth.
  - exists n. split; [reflexivity|].
    unfold procedural_get_node, vector_at.
    apply Z.leb_le in Hlo. apply Z.ltb_lt in Hhi.
    now rewrite Hlo, Hhi, Hnth.
  - apply nth_error_None in Hnth. lia.
Qed.

(** Outside the list the access is not defined. *)
Lemma procedural_get_node_out_of_range (data : UsdArnoldReader) (i : Z) :
  i < 0 \/ Z.of_nat (List.length (GetNodes data)) <= i ->
  procedural_get_node (Some data) i = UndefinedBehaviour.
Proof.
  intros Hout. unfold procedural_get_node, vector_at.
  destruct (0 <=? i) eqn:Hlo; [|reflexivity].
  destruct (i <? Z.of_nat (List.length (GetNodes data))) eqn:Hhi; [|reflexivity].
  apply Z.leb_le in Hlo. apply Z.ltb_lt in Hhi. lia.
Qed.

(** C8: the descriptor's extension array holds [.usd], [.usda] and
    [.usdc], in that order, before its terminating NULL. *)
Theorem scene_format_loader_extensions (format : AtSceneFormatLib) :
  fst (scene_format_loader format) = true /\
  format_extensions (snd (scene_format_loader format))
  = [Some ".usd"; Some ".usda"; Some ".usdc"; None] /\
  null_terminated (format_extensions (snd (scene_format_loader format)))
  = [".usd"; ".usda"; ".usdc"] /\
  format_name (snd (scene_format_loader format)) = "USD".
Proof. repeat split. Qed.

End ProceduralNode.

Section Viewport.
Context {handles : Handles} {arnold : Arnold} {usd : Usd} {utils : Utils}
        {translation : Translation}.

Local Open Scope Z_scope.

Lemma list_requested_true (params : option AtParamValueMap) :
  list_requested params = true <-> holds_list_true params.
Proof.
  unfold list_requested, holds_list_true. split.
  - destruct params as [p|]; [|discriminate].
    destruct (AiParamValueMapGetBool p "list") as [b|] eqn:Hget; [|discriminate].
    intros ->. now exists p.
  - intros (p & -> & ->). reflexivity.
Qed.

(** The three ways a viewport call can go: stopped at the file-name
    gate with at most an error message; a listing run; a display run. *)
Lemma procedural_viewport_shape (node : AtNode) (universe : option AtUniverse)
    (mode : AtProcViewportMode) (params : option AtParamValueMap) :
  let run := procedural_viewport node universe mode params in
  let frame := SetFrame (AiNodeGetFlt (Some node) "frame") in
  let threads := SetThreadCount (AiNodeGetInt (Some node) "threads") in
  let registry := {| vp_mode := mode; vp_params := params |} in
  (exists messages,
      run = (Ret false, messages) /\
      forall e, In e messages -> exists format arg, e = AiMsgError format arg) \/
  (exists reader read,
      list_requested params = true /\
      run = (Ret true, [New_UsdArnoldReader; Delete_UsdArnoldReader reader]) /\
      is_read read = true /\
      calls reader = [frame; SetUniverse universe; threads;
                      SetConvertPrimitives false; read]) \/
  (exists reader read,
      list_requested params = false /\
      run = (Ret true,
             [New_UsdArnoldReader;
              New_UsdArnoldViewportReaderRegistry registry;
              Delete_UsdArnoldViewportReaderRegistry registry;
              Delete_UsdArnoldReader reader]) /\
      is_read read = true /\
      calls reader = [frame; SetUniverse universe; threads;
                      SetRegistry registry; SetPurpose "proxy"; read]).
Proof.
  cbv zeta. unfold procedural_viewport.
  destruct (list_requested params) eqn:Hlist;
    destruct (AiNodeGetInt (Some node) "cache_id" =? 0) eqn:Hid; cbn.
  all: try (destruct (string_empty (AiNodeGetStr (Some node) "filename")); cbn).
  all: try (destruct (AiNodeGetArray (Some node) "overrides") as [a|]; cbn).
  all: try (destruct (0 <? AiArrayGetNumElements a)%N; cbn).
  all: try (destruct (IsSupportedFile _); cbn).
  all: rewrite ?Hlist; cbn.
  all: try (left; eexists; split; [reflexivity|];
            intros e [<-|[]]; eauto; fail).
  all: try (left; eexists; split; [reflexivity|]; intros e []; fail).
  all: try (right; left; do 2 eexists; repeat split; reflexivity).
  all: try (right; right; do 2 eexists; repeat split; reflexivity).
Qed.

(** The viewport call in one equation: the gate, then the reader with
    its three fixed calls, the calls of the listing or display branch,
    and the read. *)
Lemma procedural_viewport_run (node : AtNode) (universe : option AtUniverse)
    (mode : AtProcViewportMode) (params : option AtParamValueMap) :
  let cache_id := AiNodeGetInt (Some node) "cache_id" in
  let filename := AiNodeGetStr (Some node) "filename" in
  let overrides := AiNodeGetArray (Some node) "overrides" in
  let objectPath := AiNodeGetStr (Some node) "object_path" in
  let hasOverrides :=
    match overrides with
    | Some a => (0 <? AiArrayGetNumElements a)%N
    | None => false
    end in
  let resolved := applyProceduralSearchPath filename universe in
  let registry := {| vp_mode := mode; vp_params := params |} in
  let configuration :=
    [SetFrame (AiNodeGetFlt (Some node) "frame"); SetUniverse universe;
     SetThreadCount (AiNodeGetInt (Some node) "threads")]
    ++ (if list_requested params then [SetConvertPrimitives false]
        else [SetRegistry registry; SetPurpose "proxy"]) in
  let finish (read : reader_call) :=
    (Ret true,
     [New_UsdArnoldReader]
     ++ (if list_requested params then []
         else [New_UsdArnoldViewportReaderRegistry registry;
               Delete_UsdArnoldViewportReaderRegistry registry])
     ++ [Delete_UsdArnoldReader
           {| calls := configuration ++ [read];
              nodes := ReadNodes (configuration ++ [read]) |}]) in
  procedural_viewport node universe mode params
  = if cache_id =? 0 then
      if string_empty filename then
        if hasOverrides then finish (ReadFile filename overrides (Some objectPath))
        else (Ret false, [])
      else if IsSupportedFile resolved
           then finish (ReadFile resolved overrides (Some objectPath))
           else (Ret false, [AiMsgError "[usd] File not supported : %s" resolved])
    else finish (ReadCache cache_id objectPath).
Proof.
  cbv zeta. unfold procedural_viewport.
  destruct (AiNodeGetInt (Some node) "cache_id" =? 0); cbn.
  - destruct (string_empty (AiNodeGetStr (Some node) "filename")); cbn.
    + destruct (AiNodeGetArray (Some node) "overrides") as [a|]; cbn;
        [destruct (0 <? AiArrayGetNumElements a)%N; cbn|];
        try reflexivity;
        destruct (list_requested params); reflexivity.
    + destruct (IsSupportedFile _); cbn; [|reflexivity].
      destruct (list_requested params); reflexivity.
  - destruct (list_requested params); reflexivity.
Qed.

Lemma string_empty_true (s : string) : string_empty s = true <-> s = "".
Proof. destruct s; simpl; split; congruence. Qed.

(** The file-name gate: open, the call builds its reader, makes one
    read on it and returns [true]; shut, it returns [false] and builds
    none. *)
Lemma procedural_viewport_gate (node : AtNode) (universe : option AtUniverse)
    (mode : AtProcViewportMode) (params : option AtParamValueMap) :
  let run := procedural_viewport node universe mode params in
  let filename := AiNodeGetStr (Some node) "filename" in
  let registry := {| vp_mode := mode; vp_params := params |} in
  let configuration :=
    [SetFrame (AiNodeGetFlt (Some node) "frame"); SetUniverse universe;
     SetThreadCount (AiNodeGetInt (Some node) "threads")]
    ++ (if list_requested params then [SetConvertPrimitives false]
        else [SetRegistry registry; SetPurpose "proxy"]) in
  let open :=
    AiNodeGetInt (Some node) "cache_id" <> 0 \/
    (filename = "" /\
     exists a, AiNodeGetArray (Some node) "overrides" = Some a /\
               (0 < AiArrayGetNumElements a)%N) \/
    (filename <> "" /\
     IsSupportedFile (applyProceduralSearchPath filename universe) = true) in
  (open ->
   exists read,
     is_read read = true /\
     run = (Ret true,
            [New_UsdArnoldReader]
            ++ (if list_requested params then []
                else [New_UsdArnoldViewportReaderRegistry registry;
                      Delete_UsdArnoldViewportReaderRegistry registry])
            ++ [Delete_UsdArnoldReader
                  {| calls := configuration ++ [read];
                     nodes := ReadNodes (configuration ++ [read]) |}])) /\
  (~ open -> fst run = Ret false /\ ~ In New_UsdArnoldReader (snd run)).
Proof.
  cbv zeta. rewrite procedural_viewport_run. cbv zeta.
  destruct (Z.eqb_spec (AiNodeGetInt (Some node) "cache_id") 0) as [Hid|Hid].
  - destruct (string_empty (AiNodeGetStr (Some node) "filename")) eqn:Hempty.
    + apply string_empty_true in Hempty.
      destruct (AiNodeGetArray (Some node) "overrides") as [a|] eqn:Harr.
      * destruct (0 <? AiArrayGetNumElements a)%N eqn:Hpos.
        -- split.
           ++ intros _. eexists. split; [|reflexivity]. reflexivity.
           ++ intros Hshut. exfalso. apply Hshut. right. left.
              split; [exact Hempty|]. exists a. split; [reflexivity|].
              now apply N.ltb_lt.
        -- apply N.ltb_ge in Hpos. split.
           ++ intros [H|[(_ & b & [= <-] & Hb)|(H & _)]];
                [congruence | lia | congruence].
           ++ intros _. split; [reflexivity | intros []].
      * split.
        -- intros [H|[(_ & b & Hb & _)|(H & _)]]; congruence.
        -- intros _. split; [reflexivity | intros []].
    + assert (Hne : AiNodeGetStr (Some node) "filename" <> "").
      { intros H. apply string_empty_true in H. congruence. }
      destruct (IsSupportedFile _) eqn:Hsup.
      * split.
        -- intros _. eexists. split; [|reflexivity]. reflexivity.
        -- intros Hshut. exfalso. apply Hshut. right. right. now split.
      * split.
        -- intros [H|[(H & _)|(_ & H)]]; congruence.
        -- intros _. split; [reflexivity|]. intros [H|[]]. discriminate.
  - split.
    + intros _. eexists. split; [|reflexivity]. reflexivity.
    + intros Hshut. exfalso. apply Hshut. now left.
Qed.

Ltac viewport_shape node universe mode params :=
  let Hrun := fresh "Hrun" in
  let Hcalls := fresh "Hcalls" in
  let Hlist := fresh "Hlist" in
  let Hread := fresh "Hread" in
  destruct (procedural_viewport_shape node universe mode params)
    as [(messages & Hrun & Hmsg)
       |[(reader0 & read & Hlist & Hrun & Hread & Hcalls)
        |(reader0 & read & Hlist & Hrun & Hread & Hcalls)]];
  rewrite Hrun; cbn [fst snd].

(** A call recorded on the reader that a run logs is one of the
    list of calls of that run. *)
Ltac same_reader H :=
  cbn [In] in H;
  repeat match type of H with
         | _ \/ _ => destruct H as [H|H]
         | False => destruct H
         | Delete_UsdArnoldReader _ = Delete_UsdArnoldReader _ =>
             injection H as <-
         | _ = _ => discriminate H
         end.

Ltac absent_call Hcalls Hread :=
  let Hin := fresh "Hin" in
  intros Hin; rewrite Hcalls in Hin; cbn [In] in Hin;
  repeat match type of Hin with
         | _ \/ _ => destruct Hin as [Hin|Hin]
         | False => destruct Hin
         | _ = _ => first [discriminate Hin
                         | subst; cbn in Hread; discriminate Hread]
         end.

(** C6: a viewport call that passes the file-name gate constructs one
    reader.  When the parameter map holds [list] set to true, that
    reader is told not to convert primitives, no viewport registry is
    created and neither a registry nor a purpose is set on it; in every
    other case a viewport registry is built from the display mode and
    the parameter map and set on the reader, and the reader's purpose
    is set to [proxy].  A call the gate stops constructs no reader. *)
Theorem procedural_viewport_list_or_registry (node : AtNode)
    (universe : option AtUniverse) (mode : AtProcViewportMode)
    (params : option AtParamValueMap) :
  let run := procedural_viewport node universe mode params in
  let log := snd run in
  let registry := {| vp_mode := mode; vp_params := params |} in
  let filename := AiNodeGetStr (Some node) "filename" in
  let passes :=
    AiNodeGetInt (Some node) "cache_id" <> 0 \/
    (filename = "" /\
     exists a, AiNodeGetArray (Some node) "overrides" = Some a /\
               (0 < AiArrayGetNumElements a)%N) \/
    (filename <> "" /\
     IsSupportedFile (applyProceduralSearchPath filename universe) = true) in
  (holds_list_true params ->
   (forall r, ~ In (New_UsdArnoldViewportReaderRegistry r) log) /\
   (forall reader,
       In (Delete_UsdArnoldReader reader) log ->
       In (SetConvertPrimitives false) (calls reader) /\
       (forall r, ~ In (SetRegistry r) (calls reader)) /\
       (forall purpose, ~ In (SetPurpose purpose) (calls reader)))) /\
  (~ holds_list_true params ->
   forall reader,
     In (Delete_UsdArnoldReader reader) log ->
     In (New_UsdArnoldViewportReaderRegistry registry) log /\
     In (SetRegistry registry) (calls reader) /\
     In (SetPurpose "proxy") (calls reader) /\
     (forall b, ~ In (SetConvertPrimitives b) (calls reader))) /\
  (In New_UsdArnoldReader log ->
   exists reader, In (Delete_UsdArnoldReader reader) log) /\
  (passes -> holds_list_true params ->
   exists reader,
     run = (Ret true, [New_UsdArnoldReader; Delete_UsdArnoldReader reader]) /\
     In (SetConvertPrimitives false) (calls reader)) /\
  (passes -> ~ holds_list_true params ->
   exists reader,
     run = (Ret true,
            [New_UsdArnoldReader;
             New_UsdArnoldViewportReaderRegistry registry;
             Delete_UsdArnoldViewportReaderRegistry registry;
             Delete_UsdArnoldReader reader]) /\
     In (SetRegistry registry) (calls reader) /\
     In (SetPurpose "proxy") (calls reader)) /\
  (~ passes -> fst run = Ret false /\ ~ In New_UsdArnoldReader log).
Proof.
  cbv zeta. split; [|split; [|split; [|split; [|split]]]].
  - intros Hyes. apply list_requested_true in Hyes.
    viewport_shape node universe mode params.
    + split.
      * intros r Hin. destruct (Hmsg _ Hin) as (f & a & Heq). discriminate.
      * intros reader Hin. destruct (Hmsg _ Hin) as (f & a & Heq). discriminate.
    + split.
      * intros r Hin. same_reader Hin.
      * intros reader Hin. same_reader Hin. split; [|split].
        -- rewrite Hcalls. cbn. tauto.
        -- intros r. absent_call Hcalls Hread.
        -- intros purpose. absent_call Hcalls Hread.
    + congruence.
  - intros Hno. assert (Hlist : list_requested params = false).
    { destruct (list_requested params) eqn:Hl; [|reflexivity].
      exfalso. apply Hno. now apply list_requested_true. }
    viewport_shape node universe mode params.
    + intros reader Hin. destruct (Hmsg _ Hin) as (f & a & Heq). discriminate.
    + congruence.
    + intros reader Hin. same_reader Hin. split; [|split; [|split]].
      * cbn. tauto.
      * rewrite Hcalls. cbn. tauto.
      * rewrite Hcalls. cbn. tauto.
      * intros b. absent_call Hcalls Hread.
  - viewport_shape node universe mode params.
    + intros Hin. destruct (Hmsg _ Hin) as (f & a & Heq). discriminate.
    + intros _. exists reader0. cbn. tauto.
    + intros _. exists reader0. cbn. tauto.
  - intros Hpass Hyes. apply list_requested_true in Hyes.
    destruct (proj1 (procedural_viewport_gate node universe mode params) Hpass)
      as (read & Hread & Hrun).
    rewrite Hrun, Hyes. eexists. split; [reflexivity|]. cbn. tauto.
  - intros Hpass Hno. assert (Hlist : list_requested params = false).
    { destruct (list_requested params) eqn:Hl; [|reflexivity].
      exfalso. apply Hno. now apply list_requested_true. }
    destruct (proj1 (procedural_viewport_gate node universe mode params) Hpass)
      as (read & Hread & Hrun).
    rewrite Hrun, Hlist. eexists. split; [reflexivity|]. cbn. tauto.
  - exact (proj2 (procedural_viewport_gate node universe mode params)).
Qed.

(** C7: a reader the viewport call constructs has the universe the
    host passed as its target and no procedural parent is ever set on
    it, while the reader of the initialisation has the procedural node
    as its parent and no universe set. *)
Theorem procedural_viewport_separate_universe (node : AtNode)
    (universe : option AtUniverse) (mode : AtProcViewportMode)
    (params : option AtParamValueMap) :
  let log := snd (procedural_viewport node universe mode params) in
  (forall reader,
      In (Delete_UsdArnoldReader reader) log ->
      In (SetUniverse universe) (calls reader) /\
      (forall u, In (SetUniverse u) (calls reader) -> u = universe) /\
      (forall parent, ~ In (SetProceduralParent parent) (calls reader))) /\
  (In New_UsdArnoldReader log ->
   exists reader, In (Delete_UsdArnoldReader reader) log) /\
  (exists data,
      fst (procedural_init node) = Ret (1, Some data) /\
      In (SetProceduralParent node) (calls data) /\
      (forall u, ~ In (SetUniverse u) (calls data))).
Proof.
  cbv zeta. split; [|split].
  - viewport_shape node universe mode params.
    + intros reader Hin. destruct (Hmsg _ Hin) as (f & a & Heq). discriminate.
    + intros reader Hin. same_reader Hin. split; [|split].
      * rewrite Hcalls. cbn. tauto.
      * intros u Hin. rewrite Hcalls in Hin. cbn [In] in Hin.
        repeat match type of Hin with
               | _ \/ _ => destruct Hin as [Hin|Hin]
               | False => destruct Hin
               | SetUniverse _ = SetUniverse _ => now injection Hin
               | _ = _ => first [discriminate Hin
                               | subst; cbn in Hread; discriminate Hread]
               end.
      * intros parent. absent_call Hcalls Hread.
    + intros reader Hin. same_reader Hin. split; [|split].
      * rewrite Hcalls. cbn. tauto.
      * intros u Hin. rewrite Hcalls in Hin. cbn [In] in Hin.
        repeat match type of Hin with
               | _ \/ _ => destruct Hin as [Hin|Hin]
               | False => destruct Hin
               | SetUniverse _ = SetUniverse _ => now injection Hin
               | _ = _ => first [discriminate Hin
                               | subst; cbn in Hread; discriminate Hread]
               end.
      * intros parent. absent_call Hcalls Hread.
  - viewport_shape node universe mode params.
    + intros Hin. destruct (Hmsg _ Hin) as (f & a & Heq). discriminate.
    + intros _. exists reader0. cbn. tauto.
    + intros _. exists reader0. cbn. tauto.
  - unfold procedural_init. cbn.
    destruct (AiUniverseGetCamera None) as [cam|];
      [destruct (flt_lt _ _)|];
      destruct (negb _); cbn;
      (eexists; split; [reflexivity|]; split; [cbn; tauto|]);
      intros u Hin; cbn in Hin;
      repeat match type of Hin with
             | _ \/ _ => destruct Hin as [Hin|Hin]
             | False => destruct Hin
             | _ = _ => discriminate Hin
             end.
Qed.

(** C9: with [cache_id] zero, an empty file name without a single
    override ends the call with [false], nothing done; an empty file
    name with at least one override goes on to read the empty file
    name with those overrides; a file name that is not empty and not
    supported once resolved ends the call with an error message and
    [false], no reader constructed. *)
Theorem procedural_viewport_filename_gate (node : AtNode)
    (universe : option AtUniverse) (mode : AtProcViewportMode)
    (params : option AtParamValueMap) :
  let run := procedural_viewport node universe mode params in
  let filename := AiNodeGetStr (Some node) "filename" in
  let overrides := AiNodeGetArray (Some node) "overrides" in
  let objectPath := AiNodeGetStr (Some node) "object_path" in
  AiNodeGetInt (Some node) "cache_id" = 0 ->
  (filename = "" ->
   overrides = None \/
   (exists a, overrides = Some a /\ AiArrayGetNumElements a = 0%N) ->
   run = (Ret false, [])) /\
  (filename = "" ->
   (exists a, overrides = Some a /\ (0 < AiArrayGetNumElements a)%N) ->
   exists reader,
     fst run = Ret true /\
     In New_UsdArnoldReader (snd run) /\
     In (Delete_UsdArnoldReader reader) (snd run) /\
     filter is_read (calls reader) = [ReadFile "" overrides (Some objectPath)]) /\
  (filename <> "" ->
   IsSupportedFile (applyProceduralSearchPath filename universe) = false ->
   run = (Ret false,
          [AiMsgError "[usd] File not supported : %s"
                      (applyProceduralSearchPath filename universe)])).
Proof.
  cbv zeta. intros Hid. unfold procedural_viewport. rewrite Hid.
  split; [|split].
  - intros Hname Hnone. rewrite Hname. cbn.
    destruct Hnone as [->|(a & -> & Hzero)]; [reflexivity|].
    rewrite Hzero. reflexivity.
  - intros Hname (a & Hsome & Hpos). rewrite Hname, Hsome. cbn.
    apply N.ltb_lt in Hpos. rewrite Hpos. cbn.
    destruct (list_requested params); cbn;
      (eexists; split; [reflexivity|]; split; [tauto|]; split;
       [eauto 8|reflexivity]).
  - intros Hname Hbad.
    destruct (AiNodeGetStr (Some node) "filename") as [|c rest] eqn:Hf;
      [congruence|].
    cbn. rewrite Hbad. reflexivity.
Qed.
End Viewport.

Section SceneFormat.
Context {handles : Handles} {arnold : Arnold} {usd : Usd} {utils : Utils}
        {translation : Translation}.

Local Open Scope Z_scope.

(** C5: a file name that is not supported ends the load with an error
    message and [false], with no reader constructed and nothing else
    done; a supported one has a reader constructed, the file read
    through it into the given universe, and [true] returned. *)
Theorem scene_load_supported_only (universe : option AtUniverse)
    (filename : string) (params : option AtParamValueMap) :
  (IsSupportedFile filename = false ->
   scene_load universe filename params
   = (Ret false, [AiMsgError "[usd] File not supported : %s" filename])) /\
  (IsSupportedFile filename = true ->
   exists reader,
     scene_load universe filename params
     = (Ret true, [New_UsdArnoldReader; Delete_UsdArnoldReader reader]) /\
     In (SetUniverse universe) (calls reader) /\
     filter is_read (calls reader) = [ReadFile filename None None] /\
     nodes reader = ReadNodes (calls reader)).
Proof.
  unfold scene_load. split; intros Hsup; rewrite Hsup; cbn.
  - reflexivity.
  - destruct params as [p|]; cbn.
    + destruct (AiParamValueMapGetInt p "mask"); cbn;
        (eexists; split; [reflexivity|]; cbn; split; [tauto|]);
        split; reflexivity.
    + eexists; split; [reflexivity|]; cbn; split; [tauto|].
      split; reflexivity.
Qed.




Lemma transform_from_length (n : nat) (f : ascii -> ascii) (s : string) :
  String.length (transform_from n f s) = String.length s.
Proof.
  revert n. induction s as [|c s IH]; intros n; simpl; [reflexivity|].
  destruct n; simpl; now rewrite IH.
Qed.

End SceneFormat.

(** * The properties on the concrete host *)

Module Studio.
Import Host.

(** A cached procedural reads its cache entry, a file procedural the
    resolved file. *)
Lemma procedural_init_read_source_studio :
  (exists data,
      @procedural_init handles renderer helpers translation "proc_cache"
      = (Ret (1%Z, Some data), [New_UsdArnoldReader]) /\
      filter is_read (calls data) = [ReadCache 7 "/root"]) /\
  (exists data,
      @procedural_init handles renderer helpers translation "proc_file"
      = (Ret (1%Z, Some data), [New_UsdArnoldReader]) /\
      filter is_read (calls data)
      = [ReadFile "/shots/hero.usd" (Some []) (Some "/root")]).
Proof.
  split.
  - destruct (@procedural_init_read_source handles renderer helpers translation
                "proc_cache") as [Hcache _].
    assert (Hid : @AiNodeGetInt handles renderer (Some "proc_cache") "cache_id"
                  <> 0%Z) by (vm_compute; discriminate).
    destruct (Hcache Hid) as [Hread _]. exact Hread.
  - destruct (@procedural_init_read_source handles renderer helpers translation
                "proc_file") as [_ Hfile].
    exact (Hfile eq_refl).
Defined.

(** The studio camera's shutter runs from -1/4 to 1/4. *)
Lemma procedural_init_motion_blur_studio :
  exists data,
    fst (@procedural_init handles renderer helpers translation "proc_file")
    = Ret (1%Z, Some data) /\
    filter is_motion_blur (calls data)
    = [SetMotionBlur true (Some (minus_quarter, plus_quarter))].
Proof.
  destruct (@procedural_init_motion_blur handles renderer helpers translation
              "proc_file")
    as (data & enabled & window & Hrun & Hcalls & Hiff & Hwindow & _).
  assert (Hon : enabled = true).
  { apply Hiff. exists "persp". split; reflexivity. }
  destruct (Hwindow Hon) as (cam & Hcam & Hwin).
  injection Hcam as <-.
  exists data. split; [exact Hrun|].
  rewrite Hcalls, Hon, Hwin. reflexivity.
Defined.

(** The second of two nodes. *)
Lemma procedural_nodes_by_index_studio :
  @procedural_get_node handles (Some two_nodes) 1 = Ret (Some "/root/light").
Proof.
  destruct (@procedural_nodes_by_index handles) as [_ Hsome].
  destruct (Hsome two_nodes) as [_ Hget].
  destruct (Hget 1%Z) as (n & Hnth & Hnode).
  - cbn. lia.
  - injection Hnth as <-. exact Hnode.
Defined.

(** A listing run on the procedural that has only overrides, and a
    display run on the file procedural. *)
Lemma procedural_viewport_list_or_registry_studio :
  (exists reader,
      @procedural_viewport handles renderer usd helpers translation
         "proc_patch" (Some 1%nat) AI_PROC_POINTS (Some [("list", VBool true)])
      = (Ret true, [New_UsdArnoldReader; Delete_UsdArnoldReader reader]) /\
      In (SetConvertPrimitives false) (calls reader)) /\
  (exists reader,
      let registry := {| vp_mode := AI_PROC_POINTS; vp_params := None |} in
      @procedural_viewport handles renderer usd helpers translation
         "proc_file" (Some 1%nat) AI_PROC_POINTS None
      = (Ret true,
         [New_UsdArnoldReader;
          New_UsdArnoldViewportReaderRegistry registry;
          Delete_UsdArnoldViewportReaderRegistry registry;
          Delete_UsdArnoldReader reader]) /\
      In (SetRegistry registry) (calls reader) /\
      In (SetPurpose "proxy") (calls reader)).
Proof.
  split.
  - destruct (@procedural_viewport_list_or_registry handles renderer usd helpers
                translation "proc_patch" (Some 1%nat) AI_PROC_POINTS
                (Some [("list", VBool true)]))
      as (_ & _ & _ & Hlisting & _).
    apply Hlisting.
    + right. left. split; [reflexivity|].
      eexists. split; [reflexivity|]. reflexivity.
    + eexists. split; reflexivity.
  - destruct (@procedural_viewport_list_or_registry handles renderer usd helpers
                translation "proc_file" (Some 1%nat) AI_PROC_POINTS None)
      as (_ & _ & _ & _ & Hdisplay & _).
    apply Hdisplay.
    + right. right. split; [discriminate | reflexivity].
    + intros (p & Hp & _). discriminate Hp.
Defined.

(** A display run targets the universe it was handed. *)
Lemma procedural_viewport_separate_universe_studio :
  exists reader,
    In (Delete_UsdArnoldReader reader)
       (snd (@procedural_viewport handles renderer usd helpers translation
               "proc_file" (Some 1%nat) AI_PROC_BOXES None)) /\
    In (SetUniverse (Some 1%nat)) (calls reader).
Proof.
  destruct (@procedural_viewport_separate_universe handles renderer usd helpers
              translation "proc_file" (Some 1%nat) AI_PROC_BOXES None)
    as (Htarget & Hlogged & _).
  destruct Hlogged as [reader Hin].
  - cbn. tauto.
  - exists reader. split; [exact Hin|].
    exact (proj1 (Htarget reader Hin)).
Defined.

(** Neither a file name nor an override: nothing to show. *)
Lemma procedural_viewport_filename_gate_studio :
  @procedural_viewport handles renderer usd helpers translation
     "proc_blank" (Some 1%nat) AI_PROC_BOXES None
  = (Ret false, []).
Proof.
  destruct (@procedural_viewport_filename_gate handles renderer usd helpers
              translation "proc_blank" (Some 1%nat) AI_PROC_BOXES None eq_refl)
    as (Hblank & _ & _).
  apply Hblank.
  - reflexivity.
  - left. reflexivity.
Defined.

(** A text file is refused. *)
Lemma scene_load_supported_only_studio :
  @scene_load handles renderer usd translation None "notes.txt" None
  = (Ret false, [AiMsgError "[usd] File not supported : %s" "notes.txt"]).
Proof.
  destruct (@scene_load_supported_only handles renderer usd translation
              None "notes.txt" None) as [Hrefused _].
  exact (Hrefused eq_refl).
Defined.




End Studio.

(** * Further properties of the entry points *)

Section SearchPathMore.
Context {handles : Handles} {arnold : Arnold} {utils : Utils}.

(** A path the loop returns comes from one of the directories and is
    accessible. *)
Lemma search_path_loop_found (dirs : list string) (filename fullPath : string) :
  search_path_loop dirs filename = Some fullPath ->
  exists dir,
    In dir dirs /\ fullPath = PathJoin dir filename /\
    IsFileAccessible fullPath = true.
Proof.
  induction dirs as [|d dirs IH]; simpl; [discriminate|].
  destruct (IsFileAccessible (PathJoin d filename)) eqn:Hacc.
  - intros [= <-]. exists d. auto.
  - intros Hrest. destruct (IH Hrest) as (dir & Hin & Heq & Hok).
    exists dir. auto.
Qed.

(** X1: search-path resolution either leaves the file name as it is or
    replaces it by the join of one of the search-path directories with
    it, and that join names an accessible file. *)
Theorem applyProceduralSearchPath_sound
    (filename : string) (universe : option AtUniverse) :
  applyProceduralSearchPath filename universe = filename \/
  exists optionsNode dir,
    AiUniverseGetOptions universe = Some optionsNode /\
    In dir (TokenizePath
              (ExpandEnvironmentVariables
                 (AiNodeGetStr (Some optionsNode) "procedural_searchpath"))
              ":;" true) /\
    applyProceduralSearchPath filename universe = PathJoin dir filename /\
    IsFileAccessible (PathJoin dir filename) = true.
Proof.
  unfold applyProceduralSearchPath.
  destruct (AiUniverseGetOptions universe) as [optionsNode|]; [|now left].
  destruct (negb (list_empty _)); [|now left].
  destruct (search_path_loop _ filename) as [fullPath|] eqn:Hloop; [|now left].
  destruct (search_path_loop_found _ _ _ Hloop) as (dir & Hin & -> & Hok).
  right. exists optionsNode, dir. auto.
Qed.

(** X2: searching two lists of directories one after the other is
    searching the first and, only when it gives nothing, the second:
    directories added behind a search path never change a file name
    the path already resolves. *)
Theorem search_path_loop_app (front back : list string) (filename : string) :
  search_path_loop (front ++ back) filename
  = match search_path_loop front filename with
    | Some fullPath => Some fullPath
    | None => search_path_loop back filename
    end.
Proof.
  induction front as [|d front IH]; simpl; [reflexivity|].
  destruct (IsFileAccessible (PathJoin d filename)); [reflexivity | exact IH].
Qed.

End SearchPathMore.

Section ViewportMore.
Context {handles : Handles} {arnold : Arnold} {usd : Usd} {utils : Utils}
        {translation : Translation}.

Local Open Scope Z_scope.

(** X3: a viewport call never has undefined behaviour, and it returns
    [true], having constructed a reader, exactly when the cache id is
    not zero, or the file name is empty and there is an override, or
    the file name is not empty and is supported once resolved. *)
Theorem procedural_viewport_true_iff (node : AtNode)
    (universe : option AtUniverse) (mode : AtProcViewportMode)
    (params : option AtParamValueMap) :
  let run := procedural_viewport node universe mode params in
  let filename := AiNodeGetStr (Some node) "filename" in
  (fst run = Ret true \/ fst run = Ret false) /\
  (fst run = Ret true <->
   AiNodeGetInt (Some node) "cache_id" <> 0 \/
   (filename = "" /\
    exists a, AiNodeGetArray (Some node) "overrides" = Some a /\
              (0 < AiArrayGetNumElements a)%N) \/
   (filename <> "" /\
    IsSupportedFile (applyProceduralSearchPath filename universe) = true)) /\
  (fst run = Ret true <-> In New_UsdArnoldReader (snd run)).
Proof.
  cbv zeta. rewrite procedural_viewport_run. cbv zeta.
  destruct (Z.eqb_spec (AiNodeGetInt (Some node) "cache_id") 0) as [Hid|Hid].
  - destruct (string_empty (AiNodeGetStr (Some node) "filename")) eqn:Hempty.
    + apply string_empty_true in Hempty.
      destruct (AiNodeGetArray (Some node) "overrides") as [a|] eqn:Harr.
      * destruct (0 <? AiArrayGetNumElements a)%N eqn:Hpos; cbn [fst snd].
        -- apply N.ltb_lt in Hpos. repeat split; auto.
           ++ intros _. right. left. split; [exact Hempty|]. now exists a.
           ++ intros _. cbn. tauto.
        -- apply N.ltb_ge in Hpos. repeat split; auto; try discriminate.
           ++ intros [H|[(_ & b & [= <-] & Hb)|(H & _)]];
                [congruence | lia | congruence].
           ++ intros [].
      * cbn [fst snd]. repeat split; auto; try discriminate.
        -- intros [H|[(_ & b & Hb & _)|(H & _)]]; congruence.
        -- intros [].
    + assert (Hne : AiNodeGetStr (Some node) "filename" <> "").
      { intros H. apply string_empty_true in H. congruence. }
      destruct (IsSupportedFile _) eqn:Hsup; cbn [fst snd].
      * repeat split; auto. intros _. cbn. tauto.
      * repeat split; auto; try discriminate.
        -- intros [H|[(H & _)|(_ & H)]]; congruence.
        -- intros [H|[]]. discriminate.
  - cbn [fst snd]. repeat split; auto. intros _. cbn. tauto.
Qed.

(** X4: with a non-zero cache id the file name is not tested at all:
    whatever it is, the call logs no error, returns [true], and the one
    read of its reader is [Read(cache_id, objectPath)]. *)
Theorem procedural_viewport_cache (node : AtNode)
    (universe : option AtUniverse) (mode : AtProcViewportMode)
    (params : option AtParamValueMap) :
  let run := procedural_viewport node universe mode params in
  let cache_id := AiNodeGetInt (Some node) "cache_id" in
  cache_id <> 0 ->
  fst run = Ret true /\
  (forall format arg, ~ In (AiMsgError format arg) (snd run)) /\
  exists reader,
    In (Delete_UsdArnoldReader reader) (snd run) /\
    filter is_read (calls reader)
    = [ReadCache cache_id (AiNodeGetStr (Some node) "object_path")].
Proof.
  cbv zeta. intros Hid. rewrite procedural_viewport_run. cbv zeta.
  apply Z.eqb_neq in Hid. rewrite Hid.
  destruct (list_requested params); cbn.
  - split; [reflexivity|]. split.
    + intros format arg [H|[H|[]]]; discriminate.
    + eexists. split; [right; left; reflexivity | reflexivity].
  - split; [reflexivity|]. split.
    + intros format arg [H|[H|[H|[H|[]]]]]; discriminate.
    + eexists. split; [do 3 right; left; reflexivity | reflexivity].
Qed.

(** X5: with cache id zero, a file name that is not empty and is
    supported once resolved is read under its resolved name, the search
    path being that of the universe handed to the call, together with
    the node's overrides and object path. *)
Theorem procedural_viewport_file (node : AtNode)
    (universe : option AtUniverse) (mode : AtProcViewportMode)
    (params : option AtParamValueMap) :
  let run := procedural_viewport node universe mode params in
  let filename := AiNodeGetStr (Some node) "filename" in
  let resolved := applyProceduralSearchPath filename universe in
  AiNodeGetInt (Some node) "cache_id" = 0 ->
  filename <> "" ->
  IsSupportedFile resolved = true ->
  fst run = Ret true /\
  exists reader,
    In (Delete_UsdArnoldReader reader) (snd run) /\
    filter is_read (calls reader)
    = [ReadFile resolved (AiNodeGetArray (Some node) "overrides")
                (Some (AiNodeGetStr (Some node) "object_path"))].
Proof.
  cbv zeta. intros Hid Hname Hsup. rewrite procedural_viewport_run. cbv zeta.
  rewrite Hid, Hsup. cbn [Z.eqb].
  destruct (string_empty _) eqn:Hempty;
    [apply string_empty_true in Hempty; congruence|].
  destruct (list_requested params); cbn.
  - split; [reflexivity|].
    eexists. split; [right; left; reflexivity | reflexivity].
  - split; [reflexivity|].
    eexists. split; [do 3 right; left; reflexivity | reflexivity].
Qed.

(** X6: the calls on a viewport reader are the read, which comes last
    and only once, and before it nothing but [SetFrame], [SetUniverse],
    [SetThreadCount], [SetConvertPrimitives], [SetRegistry] and
    [SetPurpose]: the viewport never sets motion blur, the debug flag,
    a mask or a procedural parent. *)
Theorem procedural_viewport_calls (node : AtNode)
    (universe : option AtUniverse) (mode : AtProcViewportMode)
    (params : option AtParamValueMap) (reader : UsdArnoldReader) :
  In (Delete_UsdArnoldReader reader)
     (snd (procedural_viewport node universe mode params)) ->
  exists configuration read,
    calls reader = configuration ++ [read] /\
    is_read read = true /\
    forallb is_viewport_call configuration = true /\
    nodes reader = ReadNodes (calls reader).
Proof.
  rewrite procedural_viewport_run. cbv zeta.
  destruct (AiNodeGetInt (Some node) "cache_id" =? 0);
    [destruct (string_empty _);
     [destruct (match AiNodeGetArray (Some node) "overrides" with
                | Some a => (0 <? AiArrayGetNumElements a)%N
                | None => false
                end)
     |destruct (IsSupportedFile _)]|];
    destruct (list_requested params); cbn [snd app In];
    intros Hin;
    repeat match type of Hin with
           | _ \/ _ => destruct Hin as [Hin|Hin]
           | False => destruct Hin
           | Delete_UsdArnoldReader _ = Delete_UsdArnoldReader _ =>
               injection Hin as <-
           | _ = _ => discriminate Hin
           end;
    match goal with
    | |- exists configuration read,
          calls {| calls := ?l; nodes := _ |} = _ /\ _ =>
        exists (removelast l), (last l (SetDebug false))
    end;
    repeat split.
Qed.

End ViewportMore.

Section ProceduralNodeMore.
Context {handles : Handles} {arnold : Arnold} {utils : Utils}
        {translation : Translation}.

Local Open Scope Z_scope.

(** The initialisation in one equation. *)
Lemma procedural_init_run (node : AtNode) :
  let blur :=
    match AiUniverseGetCamera None with
    | Some cam =>
        if flt_lt (AiNodeGetFlt (Some cam) "shutter_start")
                  (AiNodeGetFlt (Some cam) "shutter_end")
        then SetMotionBlur true
               (Some (AiNodeGetFlt (Some cam) "shutter_start",
                      AiNodeGetFlt (Some cam) "shutter_end"))
        else SetMotionBlur false None
    | None => SetMotionBlur false None
    end in
  let configuration :=
    [SetProceduralParent node;
     SetFrame (AiNodeGetFlt (Some node) "frame");
     SetDebug (AiNodeGetBool (Some node) "debug");
     SetThreadCount (AiNodeGetInt (Some node) "threads");
     blur] in
  let read :=
    if AiNodeGetInt (Some node) "cache_id" =? 0 then
      ReadFile
        (applyProceduralSearchPath (AiNodeGetStr (Some node) "filename") None)
        (AiNodeGetArray (Some node) "overrides")
        (Some (AiNodeGetStr (Some node) "object_path"))
    else
      ReadCache (AiNodeGetInt (Some node) "cache_id")
                (AiNodeGetStr (Some node) "object_path") in
  procedural_init node
  = (Ret (1, Some {| calls := configuration ++ [read];
                     nodes := ReadNodes (configuration ++ [read]) |}),
     [New_UsdArnoldReader]).
Proof.
  cbv zeta. unfold procedural_init. cbn.
  destruct (AiUniverseGetCamera None) as [cam|];
    [destruct (flt_lt _ _) eqn:Hlt|];
    destruct (AiNodeGetInt (Some node) "cache_id" =? 0); reflexivity.
Qed.

Lemma is_read_choice (b : bool) (x y : reader_call) :
  is_read x = true -> is_read y = true -> is_read (if b then x else y) = true.
Proof. now destruct b. Qed.

(** X7: the initialisation has no file-name gate.  Whatever the node
    holds, it returns 1 and hands over a reader on which five
    configuration calls were made and then, last, exactly one read; the
    reader's node list is what that read created. *)
Theorem procedural_init_always_reads (node : AtNode) :
  exists data configuration read,
    procedural_init node = (Ret (1, Some data), [New_UsdArnoldReader]) /\
    calls data = configuration ++ [read] /\
    is_read read = true /\
    List.length configuration = 5%nat /\
    forallb (fun c => negb (is_read c)) configuration = true /\
    GetNodes data = ReadNodes (calls data).
Proof.
  rewrite procedural_init_run. cbv zeta.
  do 3 eexists. split; [reflexivity|]. cbn [calls nodes GetNodes].
  split; [reflexivity|]. split; [|split; [reflexivity|split; [|reflexivity]]].
  - apply is_read_choice; reflexivity.
  - cbn. destruct (AiUniverseGetCamera None) as [cam|];
      [destruct (flt_lt _ _)|]; reflexivity.
Qed.

End ProceduralNodeMore.

Section SceneLoadMore.
Context {handles : Handles} {arnold : Arnold} {usd : Usd}
        {translation : Translation}.

Local Open Scope Z_scope.

(** The load in one equation. *)
Lemma scene_load_run (universe : option AtUniverse) (filename : string)
    (params : option AtParamValueMap) :
  let lookup {A : Type} (get : AtParamValueMap -> string -> option A)
             (key : string) : option A :=
    match params with
    | Some p => get p key
    | None => None
    end in
  let frame :=
    match lookup AiParamValueMapGetFlt "frame" with
    | Some f => f
    | None => AiNodeGetFlt (AiUniverseGetOptions None) "frame"
    end in
  let threadCount :=
    match lookup AiParamValueMapGetInt "threads" with
    | Some n => n
    | None => 0
    end in
  let mask :=
    match lookup AiParamValueMapGetInt "mask" with
    | Some m => [SetMask m]
    | None => []
    end in
  let configuration :=
    [SetUniverse universe] ++ mask ++ [SetFrame frame; SetThreadCount threadCount] in
  let read := ReadFile filename None None in
  scene_load universe filename params
  = if IsSupportedFile filename then
      (Ret true,
       [New_UsdArnoldReader;
        Delete_UsdArnoldReader
          {| calls := configuration ++ [read];
             nodes := ReadNodes (configuration ++ [read]) |}])
    else (Ret false, [AiMsgError "[usd] File not supported : %s" filename]).
Proof.
  cbv zeta. unfold scene_load.
  destruct (IsSupportedFile filename); cbn; [|reflexivity].
  destruct params as [p|]; cbn; [|reflexivity].
  destruct (AiParamValueMapGetInt p "mask"); reflexivity.
Qed.

(** X10: how a scene load configures its reader.  The frame is the
    [frame] entry of the parameter map when there is one and the frame
    of the default universe's options otherwise; the thread count is
    the [threads] entry when there is one and 0 otherwise; a mask is set
    exactly when the map has a [mask] entry, to that value. *)
Theorem scene_load_configuration (universe : option AtUniverse)
    (filename : string) (params : option AtParamValueMap)
    (reader : UsdArnoldReader) :
  let entry {A : Type} (get : AtParamValueMap -> string -> option A)
            (key : string) : option A :=
    match params with
    | Some p => get p key
    | None => None
    end in
  In (Delete_UsdArnoldReader reader)
     (snd (scene_load universe filename params)) ->
  (forall frame,
      In (SetFrame frame) (calls reader) <->
      frame = match entry AiParamValueMapGetFlt "frame" with
              | Some f => f
              | None => AiNodeGetFlt (AiUniverseGetOptions None) "frame"
              end) /\
  (forall n,
      In (SetThreadCount n) (calls reader) <->
      n = match entry AiParamValueMapGetInt "threads" with
          | Some t => t
          | None => 0
          end) /\
  (forall mask,
      In (SetMask mask) (calls reader) <->
      entry AiParamValueMapGetInt "mask" = Some mask).
Proof.
  cbv zeta. rewrite scene_load_run. cbv zeta.
  destruct (IsSupportedFile filename); cbn [snd In]; intros Hin;
    repeat match type of Hin with
           | _ \/ _ => destruct Hin as [Hin|Hin]
           | False => destruct Hin
           | Delete_UsdArnoldReader _ = Delete_UsdArnoldReader _ =>
               injection Hin as <-
           | _ = _ => discriminate Hin
           end.
  cbn [calls].
  destruct (match params with
            | Some p => AiParamValueMapGetInt p "mask"
            | None => None
            end) as [m|]; cbn [app In];
    (split; [|split]); intros x; split;
      try (intros H;
           repeat match type of H with
                  | _ \/ _ => destruct H as [H|H]
                  | False => destruct H
                  | _ = _ => first [discriminate H | now injection H as <-]
                  end; fail);
      try (intros ->; tauto);
      try (intros [= ->]; tauto);
      try discriminate.
Qed.

(** X11: the reader of a scene load gets its configuration first and
    its one read last, the read being [Read(filename, nullptr)]; it is
    never given a procedural parent, a purpose, a registry, motion blur
    or a debug flag. *)
Theorem scene_load_calls (universe : option AtUniverse)
    (filename : string) (params : option AtParamValueMap)
    (reader : UsdArnoldReader) :
  In (Delete_UsdArnoldReader reader)
     (snd (scene_load universe filename params)) ->
  exists configuration,
    calls reader = configuration ++ [ReadFile filename None None] /\
    forallb (fun c =>
               match c with
               | SetUniverse _ | SetMask _ | SetFrame _ | SetThreadCount _ => true
               | _ => false
               end) configuration = true /\
    In (SetUniverse universe) configuration /\
    nodes reader = ReadNodes (calls reader).
Proof.
  rewrite scene_load_run. cbv zeta.
  destruct (IsSupportedFile filename); cbn [snd In]; intros Hin;
    repeat match type of Hin with
           | _ \/ _ => destruct Hin as [Hin|Hin]
           | False => destruct Hin
           | Delete_UsdArnoldReader _ = Delete_UsdArnoldReader _ =>
               injection Hin as <-
           | _ = _ => discriminate Hin
           end.
  cbn [calls nodes].
  destruct (match params with
            | Some p => AiParamValueMapGetInt p "mask"
            | None => None
            end); cbn [app];
    match goal with
    | |- exists configuration, ?l = _ /\ _ => exists (removelast l)
    end; cbn; auto.
Qed.

End SceneLoadMore.

Section SceneWriteMore.
Context {handles : Handles} {arnold : Arnold} {usd : Usd} {utils : Utils}.

Local Open Scope Z_scope.

(** The write in one equation: the name that is accepted, then the
    stage, the writer with the settings found in the parameter map, the
    save. *)
Lemma scene_write_run (universe : option AtUniverse) (filename : string)
    (params : option AtParamValueMap) :
  let entry {A B : Type} (get : AtParamValueMap -> string -> option A)
            (key : string) (f : A -> B) : list B :=
    match params with
    | Some p => match get p key with Some a => [f a] | None => [] end
    | None => []
    end in
  let settings :=
    entry AiParamValueMapGetInt str_mask WriterSetMask
    ++ entry AiParamValueMapGetStr str_scope SetScope
    ++ entry AiParamValueMapGetBool str_all_attributes SetWriteAllAttributes in
  let save (name : string) :=
    match UsdStage_Open_CreateNew name with
    | None =>
        (Ret false,
         [SdfLayer_CreateNew name;
          AiMsgError "[usd] Unable to create USD stage from %s" name])
    | Some stage =>
        (Ret true,
         [SdfLayer_CreateNew name;
          New_UsdArnoldWriter;
          RootLayer_Save stage;
          AiMsgInfo "[usd] Saved scene as %s" name;
          Delete_UsdArnoldWriter
            {| writer_calls :=
                 SetUsdStage stage :: settings ++ [Write universe] |}])
    end in
  let lowered :=
    transform_from
      (String.length filename - String.length (TfGetExtension filename))
      tolower filename in
  scene_write universe filename params
  = if IsSupportedFile filename then save filename
    else if (String.length (TfGetExtension filename)
             <=? String.length filename)%nat then
           if IsSupportedFile lowered then
             (fst (save lowered),
              AiMsgWarning
                "[usd] File extension must be lower case. Saving as %s" lowered
                :: snd (save lowered))
           else (Ret false, [AiMsgError "[usd] File not supported : %s" lowered])
         else (UndefinedBehaviour, []).
Proof.
  cbv zeta. unfold scene_write, lower_case_extension.
  destruct (IsSupportedFile filename); cbn.
  - destruct (UsdStage_Open_CreateNew filename); cbn; [|reflexivity].
    destruct params as [p|]; cbn; [|reflexivity].
    destruct (AiParamValueMapGetInt p str_mask);
      destruct (AiParamValueMapGetStr p str_scope);
      destruct (AiParamValueMapGetBool p str_all_attributes); reflexivity.
  - destruct (_ <=? _)%nat; cbn; [|reflexivity].
    destruct (IsSupportedFile _); cbn; [|reflexivity].
    destruct (UsdStage_Open_CreateNew _); cbn; [|reflexivity].
    destruct params as [p|]; cbn; [|reflexivity].
    destruct (AiParamValueMapGetInt p str_mask);
      destruct (AiParamValueMapGetStr p str_scope);
      destruct (AiParamValueMapGetBool p str_all_attributes); reflexivity.
Qed.

Ltac scene_write_cases universe filename params :=
  rewrite (scene_write_run universe filename params); cbv zeta;
  destruct (IsSupportedFile filename) eqn:Hgiven;
  [destruct (UsdStage_Open_CreateNew filename) as [stage|] eqn:Hstage
  |destruct (String.length (TfGetExtension filename)
             <=? String.length filename)%nat eqn:Hlength;
   [destruct (IsSupportedFile
                (transform_from
                   (String.length filename
                    - String.length (TfGetExtension filename))
                   tolower filename)) eqn:Hlowered;
    [destruct (UsdStage_Open_CreateNew
                 (transform_from
                    (String.length filename
                     - String.length (TfGetExtension filename))
                    tolower filename)) as [stage|] eqn:Hstage
    |]
   |]];
  cbn [fst snd].

Ltac events Hin :=
  cbn [In] in Hin;
  repeat match type of Hin with
         | _ \/ _ => destruct Hin as [Hin|Hin]
         | False => destruct Hin
         end.

(** X12: a name that is supported as given is used as given: the first
    thing the write does is create the layer under exactly that name,
    and it logs no warning. *)
Theorem scene_write_supported_name (universe : option AtUniverse)
    (filename : string) (params : option AtParamValueMap) :
  IsSupportedFile filename = true ->
  (exists rest,
      snd (scene_write universe filename params)
      = SdfLayer_CreateNew filename :: rest) /\
  (forall format arg,
      ~ In (AiMsgWarning format arg) (snd (scene_write universe filename params))).
Proof.
  intros Hsup. scene_write_cases universe filename params; try congruence.
  - split; [eexists; reflexivity|].
    intros format arg Hin. events Hin; discriminate.
  - split; [eexists; reflexivity|].
    intros format arg Hin. events Hin; discriminate.
Qed.

(** X13: a layer is only ever created under a supported name, and at
    most one layer is created per call. *)
Theorem scene_write_layer_supported (universe : option AtUniverse)
    (filename : string) (params : option AtParamValueMap) :
  let log := snd (scene_write universe filename params) in
  (forall name, In (SdfLayer_CreateNew name) log -> IsSupportedFile name = true) /\
  (count (fun e => match e with SdfLayer_CreateNew _ => true | _ => false end) log
   <= 1)%nat.
Proof.
  cbv zeta. scene_write_cases universe filename params;
    (split; [intros name Hin; events Hin; try discriminate;
             injection Hin as <-; assumption
            | cbn; lia]).
Qed.

(** X14: the result of a write tells what happened.  [true] means that
    exactly one stage was saved, after a writer was given that stage and
    asked to write the universe, and that the info message names the
    layer created; [false] means that the last thing logged is an error
    message and that no writer was constructed and nothing was saved. *)
Theorem scene_write_result (universe : option AtUniverse)
    (filename : string) (params : option AtParamValueMap) :
  let run := scene_write universe filename params in
  (fst run = Ret true ->
   exists before name stage writer settings,
     snd run
     = before
       ++ [SdfLayer_CreateNew name; New_UsdArnoldWriter; RootLayer_Save stage;
           AiMsgInfo "[usd] Saved scene as %s" name;
           Delete_UsdArnoldWriter writer] /\
     UsdStage_Open_CreateNew name = Some stage /\
     writer_calls writer = SetUsdStage stage :: settings ++ [Write universe] /\
     (forall c, In c settings ->
                match c with
                | WriterSetMask _ | SetScope _ | SetWriteAllAttributes _ => True
                | _ => False
                end) /\
     (forall e, In e before -> is_output e = false)) /\
  (fst run = Ret false ->
   (exists before format arg, snd run = before ++ [AiMsgError format arg]) /\
   (forall e, In e (snd run) ->
              is_new_writer e = false /\
              match e with RootLayer_Save _ => False | _ => True end)).
Proof.
  cbv zeta. scene_write_cases universe filename params;
    (split; [intros Hres; try discriminate Hres | intros Hres; try discriminate Hres]).
  - exists [], filename, stage. do 2 eexists.
    split; [reflexivity|]. split; [assumption|]. split; [reflexivity|].
    split; [|intros e []].
    intros c Hin.
    destruct params as [p|]; [|destruct Hin].
    destruct (AiParamValueMapGetInt p str_mask);
      destruct (AiParamValueMapGetStr p str_scope);
      destruct (AiParamValueMapGetBool p str_all_attributes);
      cbn [app In] in Hin;
      repeat match type of Hin with
             | _ \/ _ => destruct Hin as [Hin|Hin]
             | False => destruct Hin
             | _ = _ => subst c; exact I
             end.
  - split.
    + exists [SdfLayer_CreateNew filename]. do 2 eexists. reflexivity.
    + intros e Hin. events Hin; subst e; split; (reflexivity || exact I).
  - eexists [_], _, stage. do 2 eexists.
    split; [reflexivity|]. split; [assumption|]. split; [reflexivity|].
    split.
    + intros c Hin.
      destruct params as [p|]; [|destruct Hin].
      destruct (AiParamValueMapGetInt p str_mask);
        destruct (AiParamValueMapGetStr p str_scope);
        destruct (AiParamValueMapGetBool p str_all_attributes);
        cbn [app In] in Hin;
        repeat match type of Hin with
               | _ \/ _ => destruct Hin as [Hin|Hin]
               | False => destruct Hin
               | _ = _ => subst c; exact I
               end.
    + intros e [<-|[]]. reflexivity.
  - split.
    + eexists [_; _]. do 2 eexists. reflexivity.
    + intros e Hin. events Hin; subst e; split; (reflexivity || exact I).
  - split.
    + exists []. do 2 eexists. reflexivity.
    + intros e Hin. events Hin; subst e; split; (reflexivity || exact I).
Qed.

(** X15: the writer is given a mask, a scope and the all-attributes
    flag exactly when the parameter map has the entry, with the value of
    the entry; without a parameter map it is given none of them. *)
Theorem scene_write_settings (universe : option AtUniverse)
    (filename : string) (params : option AtParamValueMap)
    (writer : UsdArnoldWriter) :
  let entry {A : Type} (get : AtParamValueMap -> string -> option A)
            (key : string) : option A :=
    match params with
    | Some p => get p key
    | None => None
    end in
  In (Delete_UsdArnoldWriter writer)
     (snd (scene_write universe filename params)) ->
  (forall mask,
      In (WriterSetMask mask) (writer_calls writer) <->
      entry AiParamValueMapGetInt str_mask = Some mask) /\
  (forall scope,
      In (SetScope scope) (writer_calls writer) <->
      entry AiParamValueMapGetStr str_scope = Some scope) /\
  (forall b,
      In (SetWriteAllAttributes b) (writer_calls writer) <->
      entry AiParamValueMapGetBool str_all_attributes = Some b) /\
  In (Write universe) (writer_calls writer).
Proof.
  cbv zeta. scene_write_cases universe filename params;
    intros Hin; events Hin; try discriminate Hin;
    injection Hin as <-; cbn [writer_calls];
    (destruct params as [p|];
     [destruct (AiParamValueMapGetInt p str_mask);
      destruct (AiParamValueMapGetStr p str_scope);
      destruct (AiParamValueMapGetBool p str_all_attributes)|]);
    cbn [app In];
    (split; [|split; [|split; [|tauto]]]); intros x; split;
    try (intros H;
         repeat match type of H with
                | _ \/ _ => destruct H as [H|H]
                | False => destruct H
                | _ = _ => first [discriminate H | now injection H as <-]
                end; fail);
    try (intros [= ->]; tauto);
    try discriminate.
Qed.

Lemma tolower_idempotent (c : ascii) : tolower (tolower c) = tolower c.
Proof. destruct c as [[] [] [] [] [] [] [] []]; reflexivity. Qed.

Lemma string_map_tolower_idempotent (s : string) :
  string_map tolower (string_map tolower s) = string_map tolower s.
Proof.
  induction s as [|c s IH]; simpl; [reflexivity|].
  now rewrite tolower_idempotent, IH.
Qed.

(** Lower-casing an ending changes nothing for a comparison that
    ignores case, and nothing in the length. *)
Lemma transform_from_tolower (n : nat) (s : string) :
  string_map tolower (transform_from n tolower s) = string_map tolower s /\
  String.length (transform_from n tolower s) = String.length s.
Proof.
  revert n. induction s as [|c s IH]; intros n; simpl; [split; reflexivity|].
  destruct n as [|n]; simpl.
  - destruct (IH 0%nat) as [-> ->]. now rewrite tolower_idempotent.
  - destruct (IH n) as [-> ->]. split; reflexivity.
Qed.

(** X16: whatever the USD library takes the extension to be, a name
    that appears in the log of a write (the layer created, the name in
    a message) has the length of the requested name and differs from it
    by letter case at most. *)
Theorem scene_write_name_case_only (universe : option AtUniverse)
    (filename : string) (params : option AtParamValueMap) (name : string) :
  let log := snd (scene_write universe filename params) in
  (In (SdfLayer_CreateNew name) log \/
   exists format,
     In (AiMsgError format name) log \/ In (AiMsgWarning format name) log \/
     In (AiMsgInfo format name) log) ->
  string_map tolower name = string_map tolower filename /\
  String.length name = String.length filename.
Proof.
  cbv zeta. scene_write_cases universe filename params;
    intros [Hin|(format & [Hin|[Hin|Hin]])]; events Hin;
    try discriminate Hin; inversion Hin; subst;
    first [split; reflexivity | apply transform_from_tolower].
Qed.

End SceneWriteMore.

Section EntryPoints.
Context {handles : Handles} {arnold : Arnold} {usd : Usd} {utils : Utils}
        {translation : Translation}.

Local Open Scope Z_scope.

Ltac viewport_cases node universe mode params :=
  rewrite (procedural_viewport_run node universe mode params); cbv zeta;
  destruct (AiNodeGetInt (Some node) "cache_id" =? 0);
  [destruct (string_empty (AiNodeGetStr (Some node) "filename"));
   [destruct (match AiNodeGetArray (Some node) "overrides" with
              | Some a => (0 <? AiArrayGetNumElements a)%N
              | None => false
              end)
   |destruct (IsSupportedFile
                (applyProceduralSearchPath
                   (AiNodeGetStr (Some node) "filename") universe))]
  |];
  destruct (list_requested params); cbn [fst snd app].

Ltac scene_write_runs universe filename params :=
  rewrite (scene_write_run universe filename params); cbv zeta;
  destruct (IsSupportedFile filename);
  [destruct (UsdStage_Open_CreateNew filename)
  |destruct (String.length (TfGetExtension filename)
             <=? String.length filename)%nat;
   [destruct (IsSupportedFile _); [destruct (UsdStage_Open_CreateNew _)|]|]];
  cbn [fst snd].

(** X17: what an entry point constructs it also destroys before it
    returns: a viewport call destroys as many readers and viewport
    registries as it constructs, a scene load as many readers, a scene
    write as many writers. *)
Theorem entry_points_destroy_what_they_construct
    (node : AtNode) (universe : option AtUniverse) (mode : AtProcViewportMode)
    (filename : string) (params : option AtParamValueMap) :
  let viewport := snd (procedural_viewport node universe mode params) in
  let load := snd (scene_load universe filename params) in
  let write := snd (scene_write universe filename params) in
  (count is_new_reader viewport = count is_delete_reader viewport /\
   count is_new_registry viewport = count is_delete_registry viewport) /\
  count is_new_reader load = count is_delete_reader load /\
  count is_new_writer write = count is_delete_writer write.
Proof.
  cbv zeta. split; [|split].
  - viewport_cases node universe mode params; split; reflexivity.
  - rewrite scene_load_run. cbv zeta.
    destruct (IsSupportedFile filename); reflexivity.
  - scene_write_runs universe filename params; reflexivity.
Qed.

(** X18: the reading entry points (initialisation, viewport, scene
    load) never create a layer, construct a writer or save a stage, and
    a scene write never constructs a reader or a viewport registry. *)
Theorem entry_points_keep_to_their_side
    (node : AtNode) (universe : option AtUniverse) (mode : AtProcViewportMode)
    (filename : string) (params : option AtParamValueMap) (e : event) :
  (In e (snd (procedural_init node)) \/
   In e (snd (procedural_viewport node universe mode params)) \/
   In e (snd (scene_load universe filename params)) ->
   is_output e = false) /\
  (In e (snd (scene_write universe filename params)) -> is_input e = false).
Proof.
  split.
  - intros [Hin|[Hin|Hin]]; revert Hin.
    + rewrite procedural_init_run. cbv zeta. cbn [snd].
      intros [<-|[]]. reflexivity.
    + viewport_cases node universe mode params; intros Hin; cbn [In] in Hin;
        repeat match type of Hin with
               | _ \/ _ => destruct Hin as [Hin|Hin]
               | False => destruct Hin
               | _ = _ => subst e; reflexivity
               end.
    + rewrite scene_load_run. cbv zeta.
      destruct (IsSupportedFile filename); cbn [snd In]; intros Hin;
        repeat match type of Hin with
               | _ \/ _ => destruct Hin as [Hin|Hin]
               | False => destruct Hin
               | _ = _ => subst e; reflexivity
               end.
  - scene_write_runs universe filename params; intros Hin; cbn [In] in Hin;
      repeat match type of Hin with
             | _ \/ _ => destruct Hin as [Hin|Hin]
             | False => destruct Hin
             | _ = _ => subst e; reflexivity
             end.
Qed.

(** What a node with every parameter at its declared default reads
    back. *)
Lemma holds_defaults_values (node : AtNode) :
  holds_defaults node ->
  AiNodeGetStr (Some node) "filename" = "" /\
  AiNodeGetStr (Some node) "object_path" = "" /\
  AiNodeGetInt (Some node) "cache_id" = 0 /\
  (forall a, AiNodeGetArray (Some node) "overrides" = Some a ->
             AiArrayGetNumElements a = 0%N).
Proof.
  unfold holds_defaults. rewrite Forall_forall. intros Hall.
  split; [|split; [|split]].
  - apply (Hall (AiParameterStr "filename" "")). cbn. tauto.
  - apply (Hall (AiParameterStr "object_path" "")). cbn. tauto.
  - apply (Hall (AiParameterInt "cache_id" 0)). cbn. tauto.
  - apply (Hall (AiParameterArray "overrides" 0 1 AI_TYPE_STRING)). cbn. tauto.
Qed.

(** X19: a procedural node whose parameters still hold the defaults of
    [node_parameters] shows nothing in the viewport: the call returns
    [false] without constructing a reader or logging anything.  Its
    initialisation, which has no such gate, reads the resolved empty
    file name with an empty object path. *)
Theorem default_node_shows_nothing (node : AtNode)
    (universe : option AtUniverse) (mode : AtProcViewportMode)
    (params : option AtParamValueMap) :
  holds_defaults node ->
  procedural_viewport node universe mode params = (Ret false, []) /\
  exists data,
    fst (procedural_init node) = Ret (1, Some data) /\
    filter is_read (calls data)
    = [ReadFile (applyProceduralSearchPath "" None)
                (AiNodeGetArray (Some node) "overrides") (Some "")].
Proof.
  intros Hdefault.
  destruct (holds_defaults_values node Hdefault) as (Hname & Hpath & Hid & Harr).
  split.
  - rewrite procedural_viewport_run. cbv zeta. rewrite Hid, Hname. cbn.
    destruct (AiNodeGetArray (Some node) "overrides") as [a|]; [|reflexivity].
    now rewrite (Harr a eq_refl).
  - rewrite procedural_init_run. cbv zeta. rewrite Hid, Hname, Hpath.
    eexists. split; [reflexivity|]. cbn.
    destruct (AiUniverseGetCamera None) as [cam|];
      [destruct (flt_lt _ _)|]; reflexivity.
Qed.

End EntryPoints.

Section ReloadTriggers.
Context {handles : Handles} {utils : Utils} {translation : Translation}.

Local Open Scope Z_scope.

(** X20: the parameters [node_parameters] declares without marking
    them [_triggers_reload] reach the reader through [SetDebug] and
    [SetThreadCount] only.  Under two renderers that show the same
    universe and answer every parameter read alike, the unmarked
    parameters of the node apart, the initialisation makes the same
    calls, those two apart; in particular it reads the same stage. *)
Theorem procedural_init_reload_triggers (a b : Arnold) (node : AtNode) :
  agree_on_reload_triggers a b node ->
  exists data_a data_b,
    fst (@procedural_init handles a utils translation node)
    = Ret (1, Some data_a) /\
    fst (@procedural_init handles b utils translation node)
    = Ret (1, Some data_b) /\
    filter (fun c => negb (is_debug_or_threads c)) (calls data_a)
    = filter (fun c => negb (is_debug_or_threads c)) (calls data_b) /\
    filter is_read (calls data_a) = filter is_read (calls data_b).
Proof.
  intros (Hopt & Hcam & Hagree).
  assert (Hmarked : forall n name,
             triggers_reload name = true ->
             @AiNodeGetStr _ a n name = @AiNodeGetStr _ b n name /\
             @AiNodeGetFlt _ a n name = @AiNodeGetFlt _ b n name /\
             @AiNodeGetInt _ a n name = @AiNodeGetInt _ b n name /\
             @AiNodeGetBool _ a n name = @AiNodeGetBool _ b n name /\
             @AiNodeGetArray _ a n name = @AiNodeGetArray _ b n name).
  { intros n name Hm. apply Hagree. intros (_ & _ & Hun). congruence. }
  assert (Hother : forall n name,
             declared name = false ->
             @AiNodeGetStr _ a n name = @AiNodeGetStr _ b n name /\
             @AiNodeGetFlt _ a n name = @AiNodeGetFlt _ b n name /\
             @AiNodeGetInt _ a n name = @AiNodeGetInt _ b n name /\
             @AiNodeGetBool _ a n name = @AiNodeGetBool _ b n name /\
             @AiNodeGetArray _ a n name = @AiNodeGetArray _ b n name).
  { intros n name Hd. apply Hagree. intros (_ & Hdecl & _). congruence. }
  destruct (Hmarked (Some node) "filename" eq_refl) as (Hfile & _).
  destruct (Hmarked (Some node) "object_path" eq_refl) as (Hobject & _).
  destruct (Hmarked (Some node) "frame" eq_refl) as (_ & Hframe & _).
  destruct (Hmarked (Some node) "cache_id" eq_refl) as (_ & _ & Hid & _).
  destruct (Hmarked (Some node) "overrides" eq_refl) as (_ & _ & _ & _ & Harr).
  assert (Hpath : forall f,
             @applyProceduralSearchPath _ a utils f None
             = @applyProceduralSearchPath _ b utils f None).
  { intros f. unfold applyProceduralSearchPath. rewrite Hopt.
    destruct (@AiUniverseGetOptions _ b None) as [o|]; [|reflexivity].
    destruct (Hother (Some o) "procedural_searchpath" eq_refl) as (-> & _).
    reflexivity. }
  rewrite !procedural_init_run. cbv zeta.
  do 2 eexists. split; [reflexivity|]. split; [reflexivity|].
  cbn [calls fst].
  rewrite Hcam, Hfile, Hobject, Hframe, Hid, Harr, Hpath.
  destruct (@AiUniverseGetCamera _ b None) as [cam|].
  - destruct (Hother (Some cam) "shutter_start" eq_refl) as (_ & -> & _).
    destruct (Hother (Some cam) "shutter_end" eq_refl) as (_ & -> & _).
    destruct (flt_lt _ _);
      destruct (@AiNodeGetInt _ b (Some node) "cache_id" =? 0);
      split; reflexivity.
  - destruct (@AiNodeGetInt _ b (Some node) "cache_id" =? 0);
      split; reflexivity.
Qed.

End ReloadTriggers.

Section LoaderMore.
Context {handles : Handles} {arnold : Arnold} {platform : Platform}.

Local Open Scope Z_scope.

(** X21: the plugin exports one node.  For an index above 0 the loader
    returns [false] and leaves the descriptor and the log alone; for any
    other index it returns [true] with the same descriptor whatever the
    platform and whatever [dlopen] answers.  On a POSIX build a failed
    [dlopen] logs exactly one warning, which carries [dlerror]; in every
    other case nothing is logged. *)
Theorem node_loader_single_node (i : Z) (node : AtNodeLib) :
  (0 < i -> node_loader i node = ((false, node), [])) /\
  (i <= 0 ->
   fst (node_loader i node)
   = (true,
      {| node_methods := Some UsdProceduralMethods;
         node_output_type := Some AI_TYPE_NONE;
         node_name := Some USD_PROCEDURAL_NAME;
         node_kind := Some AI_NODE_SHAPE_PROCEDURAL;
         node_version := Some AI_VERSION |}) /\
   (posix = true -> dlopen USDLibraryPath = false ->
    snd (node_loader i node)
    = [AiMsgWarning
         ("[USD] failed to re-load usd_proc.dylib. Crashes might happen on pre-10.13 OSX systems: %s"
            ++ newline)%string
         dlerror]) /\
   (posix = false \/ dlopen USDLibraryPath = true ->
    snd (node_loader i node) = [])).
Proof.
  unfold node_loader. split.
  - intros Hi. apply Z.ltb_lt in Hi. now rewrite Hi.
  - intros Hi. apply Z.ltb_ge in Hi. rewrite Hi.
    destruct posix; [destruct (dlopen USDLibraryPath)|]; cbn.
    + split; [reflexivity|]. split; [discriminate | reflexivity].
    + split; [reflexivity|]. split; [reflexivity|].
      intros [H|H]; discriminate.
    + split; [reflexivity|]. split; [discriminate | reflexivity].
Qed.

End LoaderMore.

Section RendererPluginMore.
Context {hydra : HydraLib}.

(** The loop over the settings appends them all, in order. *)
Lemma forward_settings (m : HdRenderSettingsMap) (d : HdArnoldRenderDelegate) :
  fold_left (fun delegate setting =>
               SetRenderSetting (fst setting) (snd setting) delegate) m d
  = {| delegate_context := delegate_context d;
       render_settings := render_settings d ++ m |}.
Proof.
  revert d. induction m as [|[k v] m IH]; intros d; simpl.
  - rewrite app_nil_r. now destruct d.
  - rewrite IH. unfold SetRenderSetting. cbn.
    now rewrite <- app_assoc.
Qed.

(** X22: a delegate created from a settings map is given every entry of
    the map as a render setting, once each and in the order of the map's
    iteration, the [houdini:renderer] entry included. *)
Theorem CreateRenderDelegate_forwards_settings (settingsMap : HdRenderSettingsMap) :
  render_settings (CreateRenderDelegate_settings settingsMap) = settingsMap /\
  (forall v, TfMapLookupPtr settingsMap houdini_renderer = Some v ->
             exists k, TfToken_eqb k houdini_renderer = true /\
                       In (k, v) (render_settings
                                    (CreateRenderDelegate_settings settingsMap))).
Proof.
  unfold CreateRenderDelegate_settings. cbv zeta. rewrite forward_settings.
  cbn. split; [reflexivity|].
  induction settingsMap as [|[k w] m IH]; simpl; [discriminate|].
  intros v. destruct (TfToken_eqb k houdini_renderer) eqn:Hk.
  - intros [= ->]. exists k. auto.
  - intros Hv. destruct (IH v Hv) as (k' & Hk' & Hin). exists k'. auto.
Qed.

Lemma TfMapLookupPtr_other (m : HdRenderSettingsMap) (k key : TfToken)
    (v : VtValue) :
  TfToken_eqb k key = false ->
  TfMapLookupPtr (m ++ [(k, v)]) key = TfMapLookupPtr m key.
Proof.
  intros Hk. induction m as [|[k' v'] m IH]; simpl.
  - now rewrite Hk.
  - now rewrite IH.
Qed.

(** X23: the delegate's context is [Husk] exactly when the map's
    [houdini:renderer] entry holds the token or the string [husk]; a
    missing entry, another name or a value of another type gives
    [Hydra].  No other setting has a say: a setting added under another
    key leaves the context as it was. *)
Theorem CreateRenderDelegate_context (settingsMap : HdRenderSettingsMap) :
  (delegate_context (CreateRenderDelegate_settings settingsMap) = Some Husk \/
   delegate_context (CreateRenderDelegate_settings settingsMap) = Some Hydra) /\
  (delegate_context (CreateRenderDelegate_settings settingsMap) = Some Husk <->
   (exists t, TfMapLookupPtr settingsMap houdini_renderer = Some (HoldingToken t) /\
              GetString t = GetString str_t_husk) \/
   TfMapLookupPtr settingsMap houdini_renderer
   = Some (HoldingString (GetString str_t_husk))) /\
  (forall k v,
      TfToken_eqb k houdini_renderer = false ->
      delegate_context (CreateRenderDelegate_settings (settingsMap ++ [(k, v)]))
      = delegate_context (CreateRenderDelegate_settings settingsMap)).
Proof.
  unfold CreateRenderDelegate_settings. cbv zeta.
  split; [|split].
  - rewrite forward_settings. cbn.
    destruct (TfMapLookupPtr settingsMap houdini_renderer) as [v|];
      [destruct (names_husk v)|]; auto.
  - rewrite forward_settings. cbn.
    destruct (TfMapLookupPtr settingsMap houdini_renderer) as [[t|s|o]|];
      cbn; unfold TfToken_eqb.
    + destruct (String.eqb_spec (GetString t) (GetString str_t_husk)) as [He|He].
      * split; [intros _; left; now exists t | reflexivity].
      * split; [discriminate|].
        intros [(t' & [= <-] & Ht)|H]; [congruence | discriminate].
    + destruct (String.eqb_spec s (GetString str_t_husk)) as [He|He].
      * split; [intros _; right; now subst | reflexivity].
      * split; [discriminate|].
        intros [(t' & H & _)|[= H]]; [discriminate | congruence].
    + split; [discriminate|].
      intros [(t' & H & _)|H]; discriminate.
    + split; [discriminate|].
      intros [(t' & H & _)|H]; discriminate.
  - intros k v Hk. rewrite !forward_settings. cbn.
    now rewrite (TfMapLookupPtr_other settingsMap k houdini_renderer v Hk).
Qed.

End RendererPluginMore.

(** * The further properties on the concrete host *)

Module StudioMore.
Import Host Workshop.

(** The text file named beside a cache id is never looked at. *)
Lemma procedural_viewport_cache_studio :
  fst (@procedural_viewport handles (arnold cached_text) usd
         (utils []) translation "proc_cached_text" None AI_PROC_BOXES None)
  = Ret true.
Proof.
  refine (proj1 (@procedural_viewport_cache handles (arnold cached_text) usd
                   (utils []) translation "proc_cached_text" None
                   AI_PROC_BOXES None _)).
  vm_compute. discriminate.
Defined.

(** The viewport reads [hero.usd] where the search path finds it. *)
Lemma procedural_viewport_file_studio :
  exists reader,
    In (Delete_UsdArnoldReader reader)
       (snd (@procedural_viewport handles renderer usd helpers translation
               "proc_file" None AI_PROC_POLYGONS None)) /\
    filter is_read (calls reader)
    = [ReadFile "/shots/hero.usd" (Some []) (Some "/root")].
Proof.
  refine (proj2 (@procedural_viewport_file handles renderer usd helpers
                   translation "proc_file" None AI_PROC_POLYGONS None _ _ _)).
  - reflexivity.
  - discriminate.
  - reflexivity.
Defined.

(** The calls of a listing run end with the read. *)
Lemma procedural_viewport_calls_studio :
  exists reader configuration read,
    In (Delete_UsdArnoldReader reader)
       (snd (@procedural_viewport handles renderer usd helpers translation
               "proc_patch" None AI_PROC_BOXES (Some [("list", VBool true)]))) /\
    calls reader = configuration ++ [read] /\
    is_read read = true.
Proof.
  assert (Hlogged :
            exists reader,
              In (Delete_UsdArnoldReader reader)
                 (snd (@procedural_viewport handles renderer usd helpers
                         translation "proc_patch" None AI_PROC_BOXES
                         (Some [("list", VBool true)])))).
  { eexists. cbn. right. left. reflexivity. }
  destruct Hlogged as [reader Hin].
  destruct (@procedural_viewport_calls handles renderer usd helpers translation
              "proc_patch" None AI_PROC_BOXES (Some [("list", VBool true)])
              reader Hin)
    as (configuration & read & Hcalls & Hread & _).
  exists reader, configuration, read. auto.
Defined.

(** A load with a mask entry sets that mask. *)
Lemma scene_load_configuration_studio :
  exists reader,
    In (Delete_UsdArnoldReader reader)
       (snd (@scene_load handles renderer usd translation None "shot.usda"
               (Some [("mask", VInt 3)]))) /\
    In (SetMask 3) (calls reader) /\
    In (SetFrame frame_1) (calls reader).
Proof.
  assert (Hlogged :
            exists reader,
              In (Delete_UsdArnoldReader reader)
                 (snd (@scene_load handles renderer usd translation None
                         "shot.usda" (Some [("mask", VInt 3)])))).
  { eexists. cbn. right. left. reflexivity. }
  destruct Hlogged as [reader Hin].
  destruct (@scene_load_configuration handles renderer usd translation None
              "shot.usda" (Some [("mask", VInt 3)]) reader Hin)
    as (Hframe & _ & Hmask).
  exists reader. split; [exact Hin|]. split.
  - apply Hmask. reflexivity.
  - apply Hframe. reflexivity.
Defined.

(** The read of a load is its last call. *)
Lemma scene_load_calls_studio :
  exists reader configuration,
    In (Delete_UsdArnoldReader reader)
       (snd (@scene_load handles renderer usd translation (Some 2%nat)
               "shot.usda" None)) /\
    calls reader = configuration ++ [ReadFile "shot.usda" None None].
Proof.
  assert (Hlogged :
            exists reader,
              In (Delete_UsdArnoldReader reader)
                 (snd (@scene_load handles renderer usd translation
                         (Some 2%nat) "shot.usda" None))).
  { eexists. cbn. right. left. reflexivity. }
  destruct Hlogged as [reader Hin].
  destruct (@scene_load_calls handles renderer usd translation (Some 2%nat)
              "shot.usda" None reader Hin)
    as (configuration & Hcalls & _).
  exists reader, configuration. auto.
Defined.

(** [shot.usd] is saved as [shot.usd]. *)
Lemma scene_write_supported_name_studio :
  exists rest,
    snd (@scene_write handles renderer usd helpers None "shot.usd" None)
    = SdfLayer_CreateNew "shot.usd" :: rest.
Proof.
  exact (proj1 (@scene_write_supported_name handles renderer usd helpers
                  None "shot.usd" None eq_refl)).
Defined.

(** A scope entry reaches the writer. *)
Lemma scene_write_settings_studio :
  exists writer,
    In (Delete_UsdArnoldWriter writer)
       (snd (@scene_write handles renderer usd helpers None "shot.usd"
               (Some [("scope", VStr "/world")]))) /\
    In (SetScope "/world") (writer_calls writer) /\
    ~ In (WriterSetMask 3) (writer_calls writer).
Proof.
  assert (Hlogged :
            exists writer,
              In (Delete_UsdArnoldWriter writer)
                 (snd (@scene_write handles renderer usd helpers None
                         "shot.usd" (Some [("scope", VStr "/world")])))).
  { eexists. cbn. do 4 right. left. reflexivity. }
  destruct Hlogged as [writer Hin].
  destruct (@scene_write_settings handles renderer usd helpers None "shot.usd"
              (Some [("scope", VStr "/world")]) writer Hin)
    as (Hmask & Hscope & _).
  exists writer. split; [exact Hin|]. split.
  - apply Hscope. reflexivity.
  - intros Hset. apply Hmask in Hset. discriminate Hset.
Defined.

(** [shot.USD] and the name it is saved under differ by case only. *)
Lemma scene_write_name_case_only_studio :
  string_map tolower "shot.usd" = string_map tolower "shot.USD" /\
  String.length "shot.usd" = String.length "shot.USD".
Proof.
  apply (@scene_write_name_case_only handles renderer usd helpers None
           "shot.USD" None "shot.usd").
  left. vm_compute. right. left. reflexivity.
Defined.

(** [proc_blank] holds nothing but defaults. *)
Lemma default_node_shows_nothing_studio :
  @procedural_viewport handles renderer usd helpers translation
     "proc_blank" None AI_PROC_BOXES None
  = (Ret false, []).
Proof.
  refine (proj1 (@default_node_shows_nothing handles renderer usd helpers
                   translation "proc_blank" None AI_PROC_BOXES None _)).
  unfold holds_defaults, node_parameters.
  repeat (apply Forall_cons; [cbn; try reflexivity; try discriminate|]).
  apply Forall_nil.
Defined.

(** Turning [debug] on and raising [threads] leaves the read alone. *)
Lemma procedural_init_reload_triggers_studio :
  exists data_plain data_tuned,
    fst (@procedural_init handles renderer helpers translation "proc_file")
    = Ret (1%Z, Some data_plain) /\
    fst (@procedural_init handles (tuned renderer) helpers translation "proc_file")
    = Ret (1%Z, Some data_tuned) /\
    filter (fun c => negb (is_debug_or_threads c)) (calls data_plain)
    = filter (fun c => negb (is_debug_or_threads c)) (calls data_tuned) /\
    filter is_read (calls data_plain) = filter is_read (calls data_tuned).
Proof.
  apply (@procedural_init_reload_triggers handles helpers translation
           renderer (tuned renderer) "proc_file").
  split; [reflexivity|]. split; [reflexivity|].
  intros n name Hmarked.
  split; [reflexivity|]. split; [reflexivity|].
  split; [|split; [|reflexivity]].
  - change (@AiNodeGetInt _ (tuned renderer) n name)
      with (if is_proc_file n && String.eqb name "threads" then 8%Z
            else @AiNodeGetInt _ renderer n name).
    destruct n as [s|]; [|reflexivity]. cbn [is_proc_file].
    destruct (String.eqb_spec s "proc_file") as [->|_]; [|reflexivity].
    destruct (String.eqb_spec name "threads") as [->|_]; [|reflexivity].
    exfalso. apply Hmarked. repeat split.
  - change (@AiNodeGetBool _ (tuned renderer) n name)
      with (if is_proc_file n && String.eqb name "debug" then true
            else @AiNodeGetBool _ renderer n name).
    destruct n as [s|]; [|reflexivity]. cbn [is_proc_file].
    destruct (String.eqb_spec s "proc_file") as [->|_]; [|reflexivity].
    destruct (String.eqb_spec name "debug") as [->|_]; [|reflexivity].
    exfalso. apply Hmarked. repeat split.
Defined.

End StudioMore.
